(** * ccsdspy.interface: PacketField and FixedLength

    A shallow embedding of [ccsdspy/interface.py] and the properties of
    its field validation, primary-header injection, CSV layout loader and
    object state. *)

From Stdlib Require Import ZArith.
From Stdlib.Strings Require Import String Ascii Byte.
From stdpp Require Import gmap strings list.

Local Open Scope string_scope.
Local Open Scope Z_scope.
Local Open Scope list_scope.

(** ** Python values and exceptions *)

(** The dynamically typed values that reach the constructor arguments.
    [VNpInt] is an instance of [np.integer]; [VOther] stands for an object
    of any other built-in type (float, bytes, list, ...). *)
Inductive value :=
| VNone
| VBool (b : bool)
| VInt (z : Z)
| VNpInt (z : Z)
| VStr (s : string)
| VOther (tag : nat).

Inductive exn :=
| TypeError (msg : string)
| ValueError (msg : string)
| KeyError (key : string)
| IndexError (msg : string)
| OSError (path : string).

Inductive result (A : Type) :=
| Ok (a : A)
| Raise (e : exn).
Arguments Ok {A} a.
Arguments Raise {A} e.

#[global] Instance result_ret : MRet result := @Ok.
#[global] Instance result_bind : MBind result := fun A B f r =>
  match r with
  | Ok a => f a
  | Raise e => Raise e
  end.

(** [isinstance(v, str)] *)
Definition isinstance_str (v : value) : bool :=
  match v with
  | VStr _ => true
  | _ => false
  end.

(** [isinstance(v, (int, np.integer))]; [bool] is a subclass of [int]. *)
Definition isinstance_int (v : value) : bool :=
  match v with
  | VBool _ | VInt _ | VNpInt _ => true
  | _ => false
  end.

(** [v is None] *)
Definition is_none (v : value) : bool :=
  match v with
  | VNone => true
  | _ => false
  end.

(** [v in t] for a tuple [t] of str literals: only a str compares equal
    to a str. *)
Definition in_str_tuple (v : value) (t : list string) : bool :=
  match v with
  | VStr s => bool_decide (s ∈ t)
  | _ => false
  end.

(** ** class PacketField *)

Module PacketField.

Record t := mk {
  _name : value;
  _data_type : value;
  _bit_length : value;
  _bit_offset : value;
  _byte_order : value
}.

Definition valid_data_types : list string :=
  ["uint"; "int"; "float"; "str"; "fill"].

Definition valid_byte_orders : list string := ["big"; "little"].

(** [PacketField.__init__]; the defaults [bit_offset=None] and
    [byte_order='big'] are supplied by the callers. *)
Definition __init__ (name data_type bit_length bit_offset byte_order : value)
  : result t :=
  if negb (isinstance_str name) then
    Raise (TypeError "name parameter must be a str")
  else if negb (isinstance_str data_type) then
    Raise (TypeError "data_type parameter must be a str")
  else if negb (isinstance_int bit_length) then
    Raise (TypeError "bit_length parameter must be an int")
  else if negb (is_none bit_offset || isinstance_int bit_offset) then
    Raise (TypeError "bit_offset parameter must be an int")
  else if negb (in_str_tuple data_type valid_data_types) then
    Raise (ValueError
      "data_type must be one of ('uint', 'int', 'float', 'str', 'fill')")
  else if negb (in_str_tuple byte_order valid_byte_orders) then
    Raise (ValueError "byte_order must be one of ('big', 'little')")
  else
    Ok {| _name := name;
          _data_type := data_type;
          _bit_length := bit_length;
          _bit_offset := bit_offset;
          _byte_order := byte_order |}.

(** [PacketField.__iter__]: the list the returned iterator runs over. *)
Definition __iter__ (self : t) : list (string * value) :=
  [("name", _name self); ("dataType", _data_type self);
   ("bitLength", _bit_length self); ("bitOffset", _bit_offset self);
   ("byteOrder", _byte_order self)].

End PacketField.

(** The checks of [PacketField.__init__] as one predicate on the
    arguments: [true] exactly when no check raises. *)
Definition accepted (name data_type bit_length bit_offset byte_order : value)
  : bool :=
  isinstance_str name && isinstance_str data_type
  && isinstance_int bit_length
  && (is_none bit_offset || isinstance_int bit_offset)
  && in_str_tuple data_type PacketField.valid_data_types
  && in_str_tuple byte_order PacketField.valid_byte_orders.

(** The integer a value denotes when it passes
    [isinstance(v, (int, np.integer))]. *)
Definition int_value (v : value) : option Z :=
  match v with
  | VBool b => Some (if b then 1 else 0)
  | VInt z | VNpInt z => Some z
  | _ => None
  end.

(** ** os.path.splitext

    The POSIX implementation ([posixpath.splitext], which calls
    [genericpath._splitext] with [sep='/'], no [altsep] and [extsep='.']). *)

(** [p.rfind(c)] for a one-character [c]: the highest index of [c] in [p],
    or [-1]. *)
Fixpoint rfind_from (c : ascii) (p : string) (i last : Z) : Z :=
  match p with
  | EmptyString => last
  | String a p' => rfind_from c p' (i + 1) (if Ascii.eqb a c then i else last)
  end.

Definition rfind (p : string) (c : ascii) : Z := rfind_from c p 0 (-1).

(** [p[:n]] and [p[n:]] for [0 <= n]. *)
Fixpoint str_take (n : nat) (p : string) : string :=
  match n, p with
  | S n', String a p' => String a (str_take n' p')
  | _, _ => EmptyString
  end.

Fixpoint str_drop (n : nat) (p : string) : string :=
  match n, p with
  | S n', String _ p' => str_drop n' p'
  | _, _ => p
  end.

(** The [while filenameIndex < dotIndex] loop of [_splitext]: [true] when
    it reaches a character other than [extsep] (the loop returns the
    split), [false] when the index runs up to [dotIndex] (only leading
    dots).  [fuel] is [dotIndex - filenameIndex]. *)
Fixpoint non_dot_before (p : string) (filenameIndex fuel : nat) : bool :=
  match fuel with
  | O => false
  | S fuel' =>
      match String.get filenameIndex p with
      | Some "."%char => non_dot_before p (S filenameIndex) fuel'
      | _ => true
      end
  end.

Definition splitext (p : string) : string * string :=
  let sepIndex := rfind p "/" in
  let dotIndex := rfind p "." in
  if (sepIndex <? dotIndex)
     && non_dot_before p (Z.to_nat (sepIndex + 1))
          (Z.to_nat (dotIndex - (sepIndex + 1)))
  then (str_take (Z.to_nat dotIndex) p, str_drop (Z.to_nat dotIndex) p)
  else (p, "").

(** ** csv.DictReader

    The reader is modelled over the records [csv.reader] yields for the
    file (one list of cells per line, [[]] for a blank line). *)

(** [DictReader.fieldnames]: the first record, [None] for an empty file. *)
Definition fieldnames (records : list (list string)) : option (list string) :=
  head records.

(** The dict [DictReader.__next__] builds for one record:
    [dict(zip(fieldnames, row))], then [restval] ([None]) under the field
    names a short row leaves out.  A later duplicate of a key overwrites
    the earlier one.  The [restkey] entry of a long row sits under the key
    [None], which no field name equals, and is left out. *)
Definition dict_of_record (names row : list string)
  : gmap string (option string) :=
  let d := foldl (fun d kv => <[kv.1 := Some kv.2]> d) ∅ (zip names row) in
  foldl (fun d key => <[key := None]> d) d (drop (length row) names).

(** The rows the reader iterates over: the records after the header,
    blank ones skipped. *)
Definition reader_rows (records : list (list string))
  : list (gmap string (option string)) :=
  match records with
  | [] => []
  | names :: rest =>
      dict_of_record names <$> filter (fun row => row ≠ []) rest
  end.

(** A cell of a row as a Python value. *)
Definition cell_value (c : option string) : value :=
  match c with
  | Some s => VStr s
  | None => VNone
  end.

(** [row[key]] *)
Definition getitem (row : gmap string (option string)) (key : string)
  : result value :=
  match row !! key with
  | Some c => Ok (cell_value c)
  | None => Raise (KeyError key)
  end.

(** ** _get_fields_csv_file *)

Section Csv.

(** [csv_records path]: the records of the CSV file at [path], [None]
    when it cannot be opened. *)
Variable csv_records : string -> option (list (list string)).

(** Python's built-in [int] on a str: [None] when it raises
    [ValueError]. *)
Variable int_of_str : string -> option Z.

(** [int(v)] for a cell value. *)
Definition py_int (v : value) : result value :=
  match v with
  | VStr s =>
      match int_of_str s with
      | Some z => Ok (VInt z)
      | None => Raise (ValueError "invalid literal for int() with base 10")
      end
  | VBool b => Ok (VInt (if b then 1 else 0))
  | VInt z | VNpInt z => Ok (VInt z)
  | VNone | VOther _ =>
      Raise (TypeError "int() argument must be a string or a number")
  end.

Definition req_columns : list string := ["name"; "data_type"; "bit_length"].

(** One pass of the body of [for row in reader]; [fields.append] on the
    local list is the accumulator. *)
Definition row_step (headers : list string)
    (row : gmap string (option string)) (fields : list PacketField.t)
  : result (list PacketField.t) :=
  fields1 ←
    (if negb (bool_decide ("bit_offset" ∈ headers)) then
       name ← getitem row "name";
       data_type ← getitem row "data_type";
       bit_length ← getitem row "bit_length" ≫= py_int;
       f ← PacketField.__init__ name data_type bit_length VNone (VStr "big");
       mret (fields ++ [f])
     else mret fields);
  if bool_decide ("bit_offset" ∈ headers) then
    name ← getitem row "name";
    data_type ← getitem row "data_type";
    bit_length ← getitem row "bit_length" ≫= py_int;
    bit_offset ← getitem row "bit_offset" ≫= py_int;
    f ← PacketField.__init__ name data_type bit_length bit_offset (VStr "big");
    mret (fields1 ++ [f])
  else mret fields1.

Fixpoint for_rows (headers : list string)
    (rows : list (gmap string (option string)))
    (fields : list PacketField.t) : result (list PacketField.t) :=
  match rows with
  | [] => Ok fields
  | row :: rows' =>
      fields' ← row_step headers row fields;
      for_rows headers rows' fields'
  end.

Definition _get_fields_csv_file (csv_file : string)
  : result (list PacketField.t) :=
  match csv_records csv_file with
  | None => Raise (OSError csv_file)
  | Some records =>
      match fieldnames records with
      | None => Raise (TypeError "argument of type 'NoneType' is not iterable")
      | Some headers =>
          if negb (forallb (fun req_col => bool_decide (req_col ∈ headers))
                     req_columns)
          then Raise (ValueError
            "Minimum required columns are ['name', 'data_type', 'bit_length'].")
          else for_rows headers (reader_rows records) []
      end
  end.

(** What the loop body builds from one row: the cells under 'name' and
    'data_type' as they are, [int] of the cell under 'bit_length', and
    for the offset [int] of the cell under 'bit_offset' when the header
    has that column, the default [None] when it has not; [byte_order]
    is the default 'big'. *)
Definition built_from (headers : list string)
    (row : gmap string (option string)) (f : PacketField.t) : Prop :=
  exists name data_type bit_length bit_offset,
    getitem row "name" = Ok name
    /\ getitem row "data_type" = Ok data_type
    /\ getitem row "bit_length" ≫= py_int = Ok bit_length
    /\ (if bool_decide ("bit_offset" ∈ headers)
        then getitem row "bit_offset" ≫= py_int = Ok bit_offset
        else bit_offset = VNone)
    /\ PacketField.__init__ name data_type bit_length bit_offset (VStr "big")
       = Ok f.

End Csv.

(** ** The object store

    List objects and [FixedLength] instances live in a store and are
    passed by reference, so that a list shared between a caller and an
    instance is the same object.  A [PacketField] has no mutating method
    and is kept as a value. *)

Record store := mk_store {
  lists : gmap nat (list PacketField.t);  (* list objects *)
  objs : gmap nat nat                     (* instance -> its [_fields] *)
}.

(** Computations that read and update the store and may raise. *)
Definition M (A : Type) : Type := store -> store * result A.

#[global] Instance M_ret : MRet M := fun A a s => (s, Ok a).
#[global] Instance M_bind : MBind M := fun A B f m s =>
  match m s with
  | (s', Ok a) => f a s'
  | (s', Raise e) => (s', Raise e)
  end.

Definition lift {A} (r : result A) : M A := fun s => (s, r).

(** A new list object holding [xs]. *)
Definition new_list (xs : list PacketField.t) : M nat := fun s =>
  let l := fresh (dom (lists s)) in
  (mk_store (<[l := xs]> (lists s)) (objs s), Ok l).

(** The elements of the list object [l]. *)
Definition read_list (l : nat) : M (list PacketField.t) := fun s =>
  match lists s !! l with
  | Some xs => (s, Ok xs)
  | None => (s, Raise (TypeError "object is not a list"))
  end.

(** [self._fields] and [self._fields = l] *)
Definition get_fields (self : nat) : M nat := fun s =>
  match objs s !! self with
  | Some l => (s, Ok l)
  | None => (s, Raise (TypeError "object has no attribute '_fields'"))
  end.

Definition set_fields (self l : nat) : M unit := fun s =>
  (mk_store (lists s) (<[self := l]> (objs s)), Ok tt).

(** The elements of the list that [self._fields] refers to. *)
Definition fields_of (s : store) (self : nat) : option (list PacketField.t) :=
  l ← objs s !! self; lists s !! l.

(** *** What a caller can do to a list object it holds *)

(** [l.append(x)], [del l[i]] and [l[i] = x] (indices from 0; out of
    range raises [IndexError] and leaves the list as it was). *)
Inductive mutation :=
| Append (x : PacketField.t)
| DelItem (i : nat)
| SetItem (i : nat) (x : PacketField.t).

Definition mutate_list (m : mutation) (xs : list PacketField.t)
  : result (list PacketField.t) :=
  match m with
  | Append x => Ok (xs ++ [x])
  | DelItem i =>
      if bool_decide (i < length xs)%nat then Ok (delete i xs)
      else Raise (IndexError "list assignment index out of range")
  | SetItem i x =>
      if bool_decide (i < length xs)%nat then Ok (<[i := x]> xs)
      else Raise (IndexError "list assignment index out of range")
  end.

(** The mutation applied in place to the list object [l]. *)
Definition mutate (l : nat) (m : mutation) : M unit := fun s =>
  match lists s !! l with
  | Some xs =>
      match mutate_list m xs with
      | Ok xs' => (mk_store (<[l := xs']> (lists s)) (objs s), Ok tt)
      | Raise e => (s, Raise e)
      end
  | None => (s, Raise (TypeError "object is not a list"))
  end.

(** The store after a caller ran the mutations [ms] on [l] in turn, an
    [IndexError] caught and the next one tried. *)
Definition mutate_all (l : nat) (ms : list mutation) (s : store) : store :=
  foldl (fun s m => (mutate l m s).1) s ms.

(** ** class FixedLength *)

(** The [file] argument of [load]: an object with a [read] method, whose
    [read()] returns [content], or a path. *)
Inductive file_arg :=
| FileObj (content : list byte)
| FilePath (path : string).

Module FixedLength.
Section World.

Variable csv_records : string -> option (list (list string)).
Variable int_of_str : string -> option Z.

(** [np_fromfile path]: the bytes of the file at [path], [None] when it
    cannot be read. *)
Variable np_fromfile : string -> option (list byte).

(** [ccsdspy.decode._decode_fixed_length], which is not part of this
    module: any function of the byte array and the field list. *)
Variable Columns : Type.
Variable _decode_fixed_length :
  list byte -> list PacketField.t -> result Columns.

(** [FixedLength.__init__]: [self._fields = fields[:]]. *)
Definition __init__ (self fields : nat) : M unit :=
  xs ← read_list fields;
  copy ← new_list xs;
  set_fields self copy.

(** [cls(fields)]: a new instance, initialised. *)
Definition new (fields : nat) : M nat := fun s =>
  let self := fresh (dom (objs s)) in
  (_ ← __init__ self fields; mret self) s.

(** [FixedLength.from_file] *)
Definition from_file (file : string) : M nat :=
  let file_extension := splitext file in
  fields ←
    (if bool_decide (file_extension.2 = ".csv") then
       xs ← lift (_get_fields_csv_file csv_records int_of_str file);
       new_list xs
     else
       lift (Raise (ValueError
         ("File type " +:+ file_extension.2 +:+ " not supported."))));
  new fields.

(** The list literal of [load], lines 135-141. *)
Definition primary_header : result (list PacketField.t) :=
  f0 ← PacketField.__init__ (VStr "CCSDS_VERSION_NUMBER") (VStr "uint")
         (VInt 3) (VInt 0) (VStr "big");
  f1 ← PacketField.__init__ (VStr "CCSDS_PACKET_TYPE") (VStr "uint")
         (VInt 1) (VInt 3) (VStr "big");
  f2 ← PacketField.__init__ (VStr "CCSDS_SECONDARY_FLAG") (VStr "uint")
         (VInt 1) (VInt 4) (VStr "big");
  f3 ← PacketField.__init__ (VStr "CCSDS_APID") (VStr "uint")
         (VInt 11) (VInt 5) (VStr "big");
  f4 ← PacketField.__init__ (VStr "CCSDS_SEQUENCE_FLAG") (VStr "uint")
         (VInt 2) (VInt 16) (VStr "big");
  f5 ← PacketField.__init__ (VStr "CCSDS_SEQUENCE_COUNT") (VStr "uint")
         (VInt 14) (VInt 18) (VStr "big");
  f6 ← PacketField.__init__ (VStr "CCSDS_PACKET_LENGTH") (VStr "uint")
         (VInt 16) (VInt 32) (VStr "big");
  mret [f0; f1; f2; f3; f4; f5; f6].

(** Lines 129-132 of [load]: [np.frombuffer(file.read(), 'u1')] for an
    object with a [read] method, [np.fromfile(file, 'u1')] otherwise. *)
Definition read_bytes (file : file_arg) : result (list byte) :=
  match file with
  | FileObj content => Ok content
  | FilePath path =>
      match np_fromfile path with
      | Some content => Ok content
      | None => Raise (OSError path)
      end
  end.

(** [FixedLength.load] *)
Definition load (self : nat) (file : file_arg)
    (include_primary_header : bool) : M Columns :=
  file_bytes ← lift (read_bytes file);
  _ ← (if include_primary_header then
         header ← lift primary_header;
         old ← get_fields self;
         xs ← read_list old;
         l ← new_list (header ++ xs);
         set_fields self l
       else mret tt);
  l ← get_fields self;
  fields ← read_list l;
  lift (_decode_fixed_length file_bytes fields).

End World.
End FixedLength.

(** The seven fields the constructor calls of [primary_header] return. *)
Definition header_fields : list PacketField.t :=
  [PacketField.mk (VStr "CCSDS_VERSION_NUMBER") (VStr "uint")
     (VInt 3) (VInt 0) (VStr "big");
   PacketField.mk (VStr "CCSDS_PACKET_TYPE") (VStr "uint")
     (VInt 1) (VInt 3) (VStr "big");
   PacketField.mk (VStr "CCSDS_SECONDARY_FLAG") (VStr "uint")
     (VInt 1) (VInt 4) (VStr "big");
   PacketField.mk (VStr "CCSDS_APID") (VStr "uint")
     (VInt 11) (VInt 5) (VStr "big");
   PacketField.mk (VStr "CCSDS_SEQUENCE_FLAG") (VStr "uint")
     (VInt 2) (VInt 16) (VStr "big");
   PacketField.mk (VStr "CCSDS_SEQUENCE_COUNT") (VStr "uint")
     (VInt 14) (VInt 18) (VStr "big");
   PacketField.mk (VStr "CCSDS_PACKET_LENGTH") (VStr "uint")
     (VInt 16) (VInt 32) (VStr "big")].

(** The store a [load] with the header leaves: a new list object, to
    which [self._fields] now refers. *)
Definition with_header (s : store) (self : nat) (xs : list PacketField.t)
  : store :=
  let l := fresh (dom (lists s)) in
  mk_store (<[l := header_fields ++ xs]> (lists s)) (<[self := l]> (objs s)).

(** A caller's list object holding one field, for the examples. *)
Definition field_A : PacketField.t :=
  PacketField.mk (VStr "A") (VStr "uint") (VInt 8) VNone (VStr "big").

Definition caller_store : store := mk_store {[0%nat := [field_A]]} ∅.

(** ** A decimal reader for the examples

    Plain decimal literals, ASCII digits with an optional sign, on which
    the examples instantiate [int_of_str]. *)

Fixpoint digits (s : string) (acc : Z) : option Z :=
  match s with
  | EmptyString => Some acc
  | String c s' =>
      let d := Z.of_nat (nat_of_ascii c) - 48 in
      if (0 <=? d) && (d <=? 9) then digits s' (10 * acc + d) else None
  end.

Definition decimal (s : string) : option Z :=
  match s with
  | EmptyString => None
  | String "-" (String c s') => Z.opp <$> digits (String c s') 0
  | String "-" EmptyString => None
  | _ => digits s 0
  end.

(** A three-column and a four-column layout file, and one without the
    'bit_length' column. *)
Definition sample_files (path : string) : option (list (list string)) :=
  if bool_decide (path = "three.csv") then
    Some [["name"; "data_type"; "bit_length"];
          ["A"; "uint"; "8"]; []; ["B"; "int"; "16"]]
  else if bool_decide (path = "four.csv") then
    Some [["name"; "data_type"; "bit_length"; "bit_offset"];
          ["A"; "uint"; "8"; "48"]; ["B"; "int"; "16"; "56"]]
  else if bool_decide (path = "short.csv") then
    Some [["name"; "data_type"]; ["A"; "uint"]]
  else None.

(** The store and the instance [from_file] returns on a '.csv' path: the
    loader's list object, and the instance with its copy. *)
Definition loaded_store (s : store) (xs : list PacketField.t) : store :=
  let l1 := fresh (dom (lists s)) in
  let l2 := fresh (dom (<[l1 := xs]> (lists s))) in
  mk_store (<[l2 := xs]> (<[l1 := xs]> (lists s)))
    (<[fresh (dom (objs s)) := l2]> (objs s)).

(** ** Well-formed stores

    Every instance refers to a list object of the store, and no two
    instances refer to the same one. *)
Definition store_inv (s : store) : Prop :=
  (forall self l, objs s !! self = Some l -> is_Some (lists s !! l))
  /\ (forall self1 self2 l,
        objs s !! self1 = Some l -> objs s !! self2 = Some l ->
        self1 = self2).

(** The four type checks of [PacketField.__init__], lines 42-49. *)
Definition types_ok (name data_type bit_length bit_offset : value) : bool :=
  isinstance_str name && isinstance_str data_type
  && isinstance_int bit_length
  && (is_none bit_offset || isinstance_int bit_offset).

(** The bits a field list declares: the sum of the [bit_length]s. *)
Definition total_bits (fields : list PacketField.t) : Z :=
  foldr (fun f acc => default 0 (int_value (PacketField._bit_length f)) + acc)
    0 fields.

(** * Properties *)

(** ** PacketField construction *)

Section PacketFieldFacts.
Import PacketField.

Implicit Types name data_type bit_length bit_offset byte_order : value.

Lemma init_accepted name data_type bit_length bit_offset byte_order :
  accepted name data_type bit_length bit_offset byte_order = true ->
  __init__ name data_type bit_length bit_offset byte_order
  = Ok (mk name data_type bit_length bit_offset byte_order).
Proof.
  unfold accepted, __init__. intros H.
  repeat (apply andb_prop in H; destruct H as [H ?]).
  repeat match goal with E : _ = true |- _ => rewrite E; clear E end.
  reflexivity.
Qed.

Lemma init_Ok_inv name data_type bit_length bit_offset byte_order f :
  __init__ name data_type bit_length bit_offset byte_order = Ok f ->
  f = mk name data_type bit_length bit_offset byte_order
  /\ accepted name data_type bit_length bit_offset byte_order = true.
Proof.
  unfold accepted, __init__.
  destruct (isinstance_str name); [|discriminate].
  destruct (isinstance_str data_type); [|discriminate].
  destruct (isinstance_int bit_length); [|discriminate].
  destruct (is_none bit_offset || isinstance_int bit_offset); [|discriminate].
  destruct (in_str_tuple data_type valid_data_types); [|discriminate].
  destruct (in_str_tuple byte_order valid_byte_orders); [|discriminate].
  simpl. intros [= <-]. split; reflexivity.
Qed.

Lemma init_rejected name data_type bit_length bit_offset byte_order :
  accepted name data_type bit_length bit_offset byte_order = false ->
  exists e, __init__ name data_type bit_length bit_offset byte_order = Raise e.
Proof.
  intros H.
  destruct (__init__ name data_type bit_length bit_offset byte_order)
    as [f|e] eqn:E; [|eauto].
  apply init_Ok_inv in E as [_ E]. congruence.
Qed.

Lemma in_str_tuple_true v t :
  in_str_tuple v t = true <-> exists s, v = VStr s /\ s ∈ t.
Proof.
  split.
  - destruct v; simpl; try discriminate.
    intros H%bool_decide_eq_true. eauto.
  - intros (s & -> & H). simpl. by apply bool_decide_eq_true.
Qed.

(** C4: a [data_type] outside ('uint', 'int', 'float', 'str', 'fill')
    or a [byte_order] outside ('big', 'little') makes the constructor
    raise, and a constructor that returns stored a [data_type] and a
    [byte_order] that are strs of these tuples. *)
Theorem init_validates_data_type_and_byte_order
    name data_type bit_length bit_offset byte_order :
  ((~ (exists s, data_type = VStr s /\ s ∈ valid_data_types)
    \/ ~ (exists s, byte_order = VStr s /\ s ∈ valid_byte_orders)) ->
   exists e,
     __init__ name data_type bit_length bit_offset byte_order = Raise e)
  /\ (forall f,
       __init__ name data_type bit_length bit_offset byte_order = Ok f ->
       (exists s, _data_type f = VStr s /\ s ∈ valid_data_types)
       /\ (exists s, _byte_order f = VStr s /\ s ∈ valid_byte_orders)).
Proof.
  split.
  - intros H. apply init_rejected. unfold accepted.
    destruct H as [H|H]; rewrite <- in_str_tuple_true in H;
      apply not_true_is_false in H; rewrite H;
      rewrite ?andb_false_r; reflexivity.
  - intros f [-> H]%init_Ok_inv. unfold accepted in H. simpl.
    repeat (apply andb_prop in H; destruct H as [H ?]).
    split; by apply in_str_tuple_true.
Qed.

Lemma init_validates_data_type_and_byte_order_witness :
  (exists e, __init__ (VStr "A") (VStr "double") (VInt 8) VNone (VStr "big")
             = Raise e)
  /\ (exists e, __init__ (VStr "A") (VStr "uint") (VInt 8) VNone (VStr "BIG")
                = Raise e)
  /\ (exists s, VStr "uint" = VStr s /\ s ∈ valid_data_types).
Proof.
  pose proof (init_validates_data_type_and_byte_order
                (VStr "A") (VStr "double") (VInt 8) VNone (VStr "big"))
    as [H1 _].
  pose proof (init_validates_data_type_and_byte_order
                (VStr "A") (VStr "uint") (VInt 8) VNone (VStr "BIG")) as [H2 _].
  pose proof (init_validates_data_type_and_byte_order
                (VStr "A") (VStr "uint") (VInt 8) VNone (VStr "big")) as [_ H3].
  split; [|split].
  - apply H1. left. rewrite <- in_str_tuple_true. vm_compute. discriminate.
  - apply H2. right. rewrite <- in_str_tuple_true. vm_compute. discriminate.
  - apply (H3 (mk (VStr "A") (VStr "uint") (VInt 8) VNone (VStr "big"))).
    reflexivity.
Defined.

Lemma int_value_isinstance v z :
  int_value v = Some z -> isinstance_int v = true.
Proof. destruct v; simpl; congruence. Qed.

(** C3, as the code has it: the constructor checks the type of
    [bit_length] and not its value.  With the other arguments valid, a
    [bit_length] that is not an integer raises [TypeError], and every
    integer [bit_length] is accepted and stored: zero, a negative one,
    and, for 'float', one other than 32 or 64. *)
Theorem init_checks_bit_length_type_only
    name data_type bit_length bit_offset byte_order :
  isinstance_str name = true ->
  in_str_tuple data_type valid_data_types = true ->
  is_none bit_offset || isinstance_int bit_offset = true ->
  in_str_tuple byte_order valid_byte_orders = true ->
  (isinstance_int bit_length = false ->
   __init__ name data_type bit_length bit_offset byte_order
   = Raise (TypeError "bit_length parameter must be an int"))
  /\ (forall z, int_value bit_length = Some z ->
      __init__ name data_type bit_length bit_offset byte_order
      = Ok (mk name data_type bit_length bit_offset byte_order)).
Proof.
  intros Hn Hd Ho Hb.
  assert (isinstance_str data_type = true) as Hs.
  { apply in_str_tuple_true in Hd as (s & -> & _). reflexivity. }
  split.
  - intros Hl. unfold __init__. rewrite Hn, Hs, Hl. reflexivity.
  - intros z Hz%int_value_isinstance. apply init_accepted.
    unfold accepted. rewrite Hn, Hs, Hz, Ho, Hd, Hb. reflexivity.
Qed.

Lemma init_checks_bit_length_type_only_witness :
  __init__ (VStr "A") (VStr "float") (VOther 0) VNone (VStr "big")
  = Raise (TypeError "bit_length parameter must be an int")
  /\ __init__ (VStr "A") (VStr "float") (VInt (-16)) VNone (VStr "big")
     = Ok (mk (VStr "A") (VStr "float") (VInt (-16)) VNone (VStr "big")).
Proof.
  split.
  - apply (init_checks_bit_length_type_only
             (VStr "A") (VStr "float") (VOther 0) VNone (VStr "big"));
      reflexivity.
  - apply (init_checks_bit_length_type_only
             (VStr "A") (VStr "float") (VInt (-16)) VNone (VStr "big")
             eq_refl eq_refl eq_refl eq_refl) with (z := (-16)).
    reflexivity.
Defined.

(** C3 fails as stated: a zero [bit_length], a negative one, and a
    'float' of 16 bits are all constructed. *)
Lemma bad_bit_length_constructed :
  __init__ (VStr "A") (VStr "uint") (VInt 0) VNone (VStr "big")
  = Ok (mk (VStr "A") (VStr "uint") (VInt 0) VNone (VStr "big"))
  /\ __init__ (VStr "A") (VStr "int") (VInt (-8)) VNone (VStr "big")
     = Ok (mk (VStr "A") (VStr "int") (VInt (-8)) VNone (VStr "big"))
  /\ __init__ (VStr "A") (VStr "float") (VInt 16) VNone (VStr "big")
     = Ok (mk (VStr "A") (VStr "float") (VInt 16) VNone (VStr "big")).
Proof. repeat split. Qed.

(** C8, as the code has it: a constructed PacketField has a
    [bit_offset] that is [None] or an integer, the one it was given;
    its sign is not checked, so with the other arguments valid every
    integer [bit_offset], a negative one included, is accepted. *)
Theorem init_bit_offset_none_or_int
    name data_type bit_length bit_offset byte_order :
  (forall f,
     __init__ name data_type bit_length bit_offset byte_order = Ok f ->
     _bit_offset f = bit_offset
     /\ (bit_offset = VNone \/ exists z, int_value bit_offset = Some z))
  /\ (forall z,
       accepted name data_type bit_length VNone byte_order = true ->
       __init__ name data_type bit_length (VInt z) byte_order
       = Ok (mk name data_type bit_length (VInt z) byte_order)).
Proof.
  split.
  - intros f [-> H]%init_Ok_inv. split; [reflexivity|].
    unfold accepted in H.
    repeat (apply andb_prop in H; destruct H as [H ?]).
    destruct bit_offset; simpl in *; eauto; discriminate.
  - intros z H. apply init_accepted. exact H.
Qed.

Lemma init_bit_offset_none_or_int_witness :
  _bit_offset (mk (VStr "A") (VStr "uint") (VInt 8) (VInt 5) (VStr "big"))
  = VInt 5
  /\ __init__ (VStr "A") (VStr "uint") (VInt 8) (VInt (-1)) (VStr "big")
     = Ok (mk (VStr "A") (VStr "uint") (VInt 8) (VInt (-1)) (VStr "big")).
Proof.
  split.
  - apply (init_bit_offset_none_or_int
             (VStr "A") (VStr "uint") (VInt 8) (VInt 5) (VStr "big")).
    reflexivity.
  - apply (init_bit_offset_none_or_int
             (VStr "A") (VStr "uint") (VInt 8) VNone (VStr "big")).
    reflexivity.
Defined.

(** C8 fails as stated: a construction with [bit_offset=-1] returns
    normally and stores the negative offset. *)
Lemma negative_bit_offset_constructed :
  exists f,
    __init__ (VStr "A") (VStr "uint") (VInt 8) (VInt (-1)) (VStr "big") = Ok f
    /\ _bit_offset f = VInt (-1).
Proof. eexists. split; reflexivity. Qed.

(** C10: iterating a constructed PacketField yields the five pairs
    'name', 'dataType', 'bitLength', 'bitOffset', 'byteOrder', in this
    order, with the values given to the constructor. *)
Theorem iter_yields_constructor_arguments
    name data_type bit_length bit_offset byte_order self :
  __init__ name data_type bit_length bit_offset byte_order = Ok self ->
  __iter__ self
  = [("name", name); ("dataType", data_type); ("bitLength", bit_length);
     ("bitOffset", bit_offset); ("byteOrder", byte_order)].
Proof. intros [-> _]%init_Ok_inv. reflexivity. Qed.

Lemma iter_yields_constructor_arguments_witness :
  __iter__ (mk (VStr "A") (VStr "int") (VInt 12) (VInt 48) (VStr "little"))
  = [("name", VStr "A"); ("dataType", VStr "int"); ("bitLength", VInt 12);
     ("bitOffset", VInt 48); ("byteOrder", VStr "little")].
Proof.
  apply (iter_yields_constructor_arguments
           (VStr "A") (VStr "int") (VInt 12) (VInt 48) (VStr "little")).
  reflexivity.
Defined.

End PacketFieldFacts.

(** ** The CSV layout loader *)

Section CsvFacts.
Import PacketField.

Variable csv_records : string -> option (list (list string)).
Variable int_of_str : string -> option Z.

Abbreviation loader := (_get_fields_csv_file csv_records int_of_str).

Ltac unfold_bind :=
  unfold mbind, result_bind, mret, result_ret in *.

(** The loop body appends exactly the field built from the row. *)
Lemma row_step_spec headers row fields fields' :
  row_step int_of_str headers row fields = Ok fields'
  <-> exists f, built_from int_of_str headers row f /\ fields' = fields ++ [f].
Proof.
  unfold row_step, built_from. unfold_bind.
  destruct (bool_decide ("bit_offset" ∈ headers)); cbn [negb].
  - split.
    + destruct (getitem row "name") as [n|]; [|discriminate].
      destruct (getitem row "data_type") as [d|]; [|discriminate].
      destruct (getitem row "bit_length") as [cl|]; [|discriminate].
      destruct (py_int int_of_str cl) as [l|] eqn:El; [|discriminate].
      destruct (getitem row "bit_offset") as [co|]; [|discriminate].
      destruct (py_int int_of_str co) as [o|] eqn:Eo; [|discriminate].
      destruct (__init__ n d l o (VStr "big")) as [f|] eqn:Ef;
        [|discriminate].
      intros [= <-]. exists f. split; [|reflexivity].
      exists n, d, l, o. auto.
    + intros (f & (n & d & l & o & -> & -> & El & Eo & Ef) & ->).
      destruct (getitem row "bit_length") as [cl|]; [|discriminate].
      rewrite El.
      destruct (getitem row "bit_offset") as [co|]; [|discriminate].
      rewrite Eo, Ef. reflexivity.
  - split.
    + destruct (getitem row "name") as [n|]; [|discriminate].
      destruct (getitem row "data_type") as [d|]; [|discriminate].
      destruct (getitem row "bit_length") as [cl|]; [|discriminate].
      destruct (py_int int_of_str cl) as [l|] eqn:El; [|discriminate].
      destruct (__init__ n d l VNone (VStr "big")) as [f|] eqn:Ef;
        [|discriminate].
      intros [= <-]. exists f. split; [|reflexivity].
      exists n, d, l, VNone. auto.
    + intros (f & (n & d & l & o & -> & -> & El & -> & Ef) & ->).
      destruct (getitem row "bit_length") as [cl|]; [|discriminate].
      rewrite El, Ef. reflexivity.
Qed.

(** The loop appends the fields of the rows, in row order. *)
Lemma for_rows_spec headers rows fields result :
  for_rows int_of_str headers rows fields = Ok result
  <-> exists new,
        Forall2 (built_from int_of_str headers) rows new
        /\ result = fields ++ new.
Proof.
  revert fields. induction rows as [|row rows IH]; intros fields; cbn.
  - split.
    + intros [= <-]. exists []. split; [constructor|]. by rewrite app_nil_r.
    + intros (new & ->%Forall2_nil_inv_l & ->). by rewrite app_nil_r.
  - destruct (row_step int_of_str headers row fields) as [fields'|e] eqn:E; cbn.
    + apply row_step_spec in E as (f & Hf & ->). rewrite IH. split.
      * intros (new & Hnew & ->). exists (f :: new).
        split; [by constructor|]. by rewrite <- app_assoc.
      * intros (new & Hnew & ->).
        apply Forall2_cons_inv_l in Hnew as (f' & new' & Hf' & Hnew' & ->).
        assert (row_step int_of_str headers row fields
                = Ok (fields ++ [f'])) as E'
          by (apply row_step_spec; eauto).
        assert (row_step int_of_str headers row fields
                = Ok (fields ++ [f])) as E''
          by (apply row_step_spec; eauto).
        rewrite E' in E''. injection E'' as E''.
        apply app_inv_head in E''. injection E'' as ->.
        exists new'. split; [done|]. by rewrite <- app_assoc.
    + split; [discriminate|].
      intros (new & Hnew & ->).
      apply Forall2_cons_inv_l in Hnew as (f' & new' & Hf' & _ & ->).
      assert (row_step int_of_str headers row fields
              = Ok (fields ++ [f'])) as E'
        by (apply row_step_spec; eauto).
      congruence.
Qed.

Lemma has_req_columns (headers : list string) :
  forallb (fun req_col => bool_decide (req_col ∈ headers)) req_columns = true
  <-> "name" ∈ headers /\ "data_type" ∈ headers /\ "bit_length" ∈ headers.
Proof.
  cbn. rewrite !andb_true_iff, !bool_decide_eq_true. tauto.
Qed.

Lemma loader_Ok (headers : list string) rest csv_file fields :
  csv_records csv_file = Some (headers :: rest) ->
  "name" ∈ headers /\ "data_type" ∈ headers /\ "bit_length" ∈ headers ->
  loader csv_file = Ok fields
  <-> Forall2 (built_from int_of_str headers)
        (reader_rows (headers :: rest)) fields.
Proof.
  intros Hfile Hreq%has_req_columns. unfold _get_fields_csv_file.
  rewrite Hfile. cbn [fieldnames head]. rewrite Hreq. cbn [negb].
  rewrite for_rows_spec. split.
  - intros (new & H & ->). exact H.
  - intros H. exists fields. auto.
Qed.

Lemma loader_Ok_req (headers : list string) rest csv_file fields :
  csv_records csv_file = Some (headers :: rest) ->
  loader csv_file = Ok fields ->
  "name" ∈ headers /\ "data_type" ∈ headers /\ "bit_length" ∈ headers.
Proof.
  intros Hfile. unfold _get_fields_csv_file.
  rewrite Hfile. cbn [fieldnames head].
  destruct (forallb _ req_columns) eqn:E; [|discriminate].
  intros _. by apply has_req_columns.
Qed.

Lemma built_from_offset (headers : list string) row f :
  built_from int_of_str headers row f ->
  ("bit_offset" ∈ headers ->
   exists cell z,
     row !! "bit_offset" = Some (Some cell)
     /\ int_of_str cell = Some z /\ _bit_offset f = VInt z)
  /\ ("bit_offset" ∉ headers -> _bit_offset f = VNone).
Proof.
  intros (n & d & l & o & _ & _ & _ & Ho & [-> _]%init_Ok_inv). cbn.
  split; intros Hin.
  - rewrite bool_decide_eq_true_2 in Ho by done.
    unfold getitem in Ho. unfold_bind.
    destruct (row !! "bit_offset") as [[cell|]|]; try discriminate.
    cbn in Ho. destruct (int_of_str cell) as [z|] eqn:Ez; [|discriminate].
    injection Ho as <-. eauto.
  - rewrite bool_decide_eq_false_2 in Ho by done. exact Ho.
Qed.

(** C5: the fields a CSV file loads into have explicit bit offsets for
    all or for none.  With a 'bit_offset' column in the header row,
    every field carries the integer read from the 'bit_offset' cell of
    its row; without it, every field has [bit_offset] [None]. *)
Theorem loader_offsets_all_or_none
    (headers : list string) rest csv_file fields :
  csv_records csv_file = Some (headers :: rest) ->
  loader csv_file = Ok fields ->
  ("bit_offset" ∈ headers ->
   Forall2
     (fun (row : gmap string (option string)) f =>
        exists cell z,
          row !! "bit_offset" = Some (Some cell)
          /\ int_of_str cell = Some z /\ _bit_offset f = VInt z)
     (reader_rows (headers :: rest)) fields)
  /\ ("bit_offset" ∉ headers ->
      Forall (fun f => _bit_offset f = VNone) fields).
Proof.
  intros Hfile Hload.
  pose proof (loader_Ok_req _ _ _ _ Hfile Hload) as Hreq.
  apply (loader_Ok _ _ _ _ Hfile Hreq) in Hload.
  split; intros Hin.
  - induction Hload as [|row f rows fs Hf _ IH]; constructor; [|exact IH].
    by apply (built_from_offset _ _ _ Hf).
  - induction Hload as [|row f rows fs Hf _ IH]; constructor; [|exact IH].
    by apply (built_from_offset _ _ _ Hf).
Qed.

(** C6: a header row without 'name', 'data_type' or 'bit_length' makes
    the loader raise [ValueError], whatever the rows below it hold; with
    all three, the loader returns a field list exactly when every row,
    in row order, builds its field. *)
Theorem loader_requires_three_columns
    (headers : list string) rest csv_file :
  csv_records csv_file = Some (headers :: rest) ->
  (~ ("name" ∈ headers /\ "data_type" ∈ headers /\ "bit_length" ∈ headers) ->
   loader csv_file
   = Raise (ValueError
       "Minimum required columns are ['name', 'data_type', 'bit_length']."))
  /\ ("name" ∈ headers /\ "data_type" ∈ headers /\ "bit_length" ∈ headers ->
      forall fields,
        loader csv_file = Ok fields
        <-> Forall2 (built_from int_of_str headers)
              (reader_rows (headers :: rest)) fields).
Proof.
  intros Hfile. split.
  - intros Hreq. unfold _get_fields_csv_file.
    rewrite Hfile. cbn [fieldnames head].
    destruct (forallb _ req_columns) eqn:E; [|reflexivity].
    by apply has_req_columns in E.
  - intros Hreq fields. by apply loader_Ok.
Qed.

End CsvFacts.

Lemma loader_offsets_all_or_none_witness :
  Forall2
    (fun (row : gmap string (option string)) f =>
       exists cell z,
         row !! "bit_offset" = Some (Some cell)
         /\ decimal cell = Some z /\ PacketField._bit_offset f = VInt z)
    (reader_rows [["name"; "data_type"; "bit_length"; "bit_offset"];
                  ["A"; "uint"; "8"; "48"]; ["B"; "int"; "16"; "56"]])
    [PacketField.mk (VStr "A") (VStr "uint") (VInt 8) (VInt 48) (VStr "big");
     PacketField.mk (VStr "B") (VStr "int") (VInt 16) (VInt 56) (VStr "big")].
Proof.
  apply (loader_offsets_all_or_none sample_files decimal
           ["name"; "data_type"; "bit_length"; "bit_offset"]
           [["A"; "uint"; "8"; "48"]; ["B"; "int"; "16"; "56"]] "four.csv").
  - reflexivity.
  - vm_compute. reflexivity.
  - apply (bool_decide_unpack _). vm_compute. exact I.
Defined.

Lemma loader_requires_three_columns_witness :
  _get_fields_csv_file sample_files decimal "short.csv"
  = Raise (ValueError
      "Minimum required columns are ['name', 'data_type', 'bit_length'].")
  /\ Forall2
       (built_from decimal ["name"; "data_type"; "bit_length"])
       (reader_rows [["name"; "data_type"; "bit_length"];
                     ["A"; "uint"; "8"]; []; ["B"; "int"; "16"]])
       [PacketField.mk (VStr "A") (VStr "uint") (VInt 8) VNone (VStr "big");
        PacketField.mk (VStr "B") (VStr "int") (VInt 16) VNone (VStr "big")].
Proof.
  split.
  - apply (loader_requires_three_columns sample_files decimal
             ["name"; "data_type"] [["A"; "uint"]] "short.csv").
    + reflexivity.
    + intros (_ & _ & H). revert H. apply (proj1 (bool_decide_eq_false _)).
      vm_compute. reflexivity.
  - apply (loader_requires_three_columns sample_files decimal
             ["name"; "data_type"; "bit_length"]
             [["A"; "uint"; "8"]; []; ["B"; "int"; "16"]] "three.csv").
    + reflexivity.
    + repeat split; apply (bool_decide_unpack _); vm_compute; exact I.
    + vm_compute. reflexivity.
Defined.

(** ** The object store *)

Section StoreFacts.

Lemma fresh_list_ne s l xs :
  lists s !! l = Some xs -> fresh (dom (lists s)) ≠ l.
Proof.
  intros H <-. apply (is_fresh (dom (lists s))).
  apply elem_of_dom. eauto.
Qed.

(** A mutation of the list object [l] leaves every other list object
    and every instance attribute as it was. *)
Lemma mutate_frame l m s :
  objs (mutate l m s).1 = objs s
  /\ forall l', l' ≠ l -> lists (mutate l m s).1 !! l' = lists s !! l'.
Proof.
  unfold mutate. destruct (lists s !! l) as [xs|]; [|done].
  destruct (mutate_list m xs); [|done]. cbn. split; [done|].
  intros l' Hne. by rewrite lookup_insert_ne.
Qed.

Lemma mutate_all_frame l ms s :
  objs (mutate_all l ms s) = objs s
  /\ forall l', l' ≠ l -> lists (mutate_all l ms s) !! l' = lists s !! l'.
Proof.
  unfold mutate_all. revert s.
  induction ms as [|m ms IH]; intros s; cbn; [done|].
  destruct (IH (mutate l m s).1) as [IHo IHl].
  destruct (mutate_frame l m s) as [Ho Hl].
  split; [congruence|]. intros l' Hne. rewrite IHl, Hl; done.
Qed.

Lemma fields_of_mutate_all l ms s self l' xs :
  objs s !! self = Some l' -> lists s !! l' = Some xs -> l' ≠ l ->
  fields_of (mutate_all l ms s) self = Some xs.
Proof.
  intros Ho Hl Hne. destruct (mutate_all_frame l ms s) as [Eo El].
  unfold fields_of. rewrite Eo, Ho. cbn. by rewrite El.
Qed.

Lemma fields_of_Some s self xs :
  fields_of s self = Some xs
  <-> exists l, objs s !! self = Some l /\ lists s !! l = Some xs.
Proof.
  unfold fields_of. destruct (objs s !! self) as [l|]; cbn.
  - split; [eauto|]. by intros (l' & [= <-] & H).
  - split; [done|]. by intros (l' & [=] & _).
Qed.

Lemma mutate_all_is_Some l ms s l' :
  is_Some (lists s !! l') -> is_Some (lists (mutate_all l ms s) !! l').
Proof.
  unfold mutate_all. revert s.
  induction ms as [|m ms IH]; intros s H; cbn; [done|].
  apply IH. unfold mutate.
  destruct (lists s !! l) as [xs|] eqn:E; [|done].
  destruct (mutate_list m xs); [|done]. cbn.
  destruct (decide (l = l')) as [->|Hne].
  - rewrite lookup_insert_eq. eauto.
  - by rewrite lookup_insert_ne.
Qed.

End StoreFacts.

(** ** FixedLength: construction and load *)

Section FixedLengthFacts.

Variable np_fromfile : string -> option (list byte).
Variable Columns : Type.
Variable _decode_fixed_length :
  list byte -> list PacketField.t -> result Columns.

Abbreviation load :=
  (FixedLength.load np_fromfile Columns _decode_fixed_length).
Abbreviation read_bytes := (FixedLength.read_bytes np_fromfile).

Lemma primary_header_value : FixedLength.primary_header = Ok header_fields.
Proof. reflexivity. Qed.

Arguments header_fields : simpl never.

Lemma fields_of_with_header s self xs :
  fields_of (with_header s self xs) self = Some (header_fields ++ xs).
Proof.
  unfold fields_of, with_header. cbn.
  rewrite lookup_insert_eq. cbn. by rewrite lookup_insert_eq.
Qed.

(** What [load] does on an instance whose field list is [xs]. *)
Lemma load_spec s self file inc xs :
  fields_of s self = Some xs ->
  load self file inc s =
  match read_bytes file with
  | Raise e => (s, Raise e)
  | Ok file_bytes =>
      if inc
      then (with_header s self xs,
            _decode_fixed_length file_bytes (header_fields ++ xs))
      else (s, _decode_fixed_length file_bytes xs)
  end.
Proof.
  intros (l & Ho & Hl)%fields_of_Some.
  unfold FixedLength.load, mbind, M_bind, lift.
  destruct (read_bytes file) as [file_bytes|e]; [|reflexivity].
  destruct inc.
  - rewrite primary_header_value.
    unfold get_fields at 1. rewrite Ho.
    unfold read_list at 1. rewrite Hl.
    unfold new_list, set_fields. cbn.
    unfold get_fields, read_list. cbn.
    rewrite lookup_insert_eq. cbn. rewrite lookup_insert_eq. reflexivity.
  - cbn. unfold get_fields, read_list. rewrite Ho, Hl. reflexivity.
Qed.

(** [load] only adds list objects: the ones there stay as they are. *)
Lemma load_keeps_lists s self file inc l :
  is_Some (lists s !! l) ->
  lists (load self file inc s).1 !! l = lists s !! l.
Proof.
  intros [ys Hl].
  unfold FixedLength.load, mbind, M_bind, lift.
  destruct (read_bytes file) as [file_bytes|e]; [|reflexivity].
  destruct inc.
  - rewrite primary_header_value.
    unfold get_fields at 1.
    destruct (objs s !! self) as [old|]; [|reflexivity].
    unfold read_list at 1.
    destruct (lists s !! old) as [xs|]; [|reflexivity].
    unfold new_list, set_fields. cbn.
    unfold get_fields, read_list. cbn.
    rewrite lookup_insert_eq. cbn. rewrite lookup_insert_eq. cbn.
    rewrite lookup_insert_ne; [done|]. by eapply fresh_list_ne.
  - cbn. unfold get_fields.
    destruct (objs s !! self) as [old|]; [|reflexivity].
    unfold read_list.
    destruct (lists s !! old) as [xs|]; reflexivity.
Qed.

(** [cls(fields)] on a list object holding [xs]. *)
Lemma new_spec s fields xs :
  lists s !! fields = Some xs ->
  FixedLength.new fields s
  = (mk_store (<[fresh (dom (lists s)) := xs]> (lists s))
       (<[fresh (dom (objs s)) := fresh (dom (lists s))]> (objs s)),
     Ok (fresh (dom (objs s)))).
Proof.
  intros Hl.
  unfold FixedLength.new, FixedLength.__init__, mbind, M_bind.
  unfold read_list. rewrite Hl. reflexivity.
Qed.

(** C1: on an instance whose field list is [xs], [load] with
    [include_primary_header] true decodes the file's bytes with seven
    fields ahead of [xs]: the CCSDS primary header fields, all 'uint',
    of bit lengths 3, 1, 1, 11, 2, 14, 16 at the explicit bit offsets
    0, 3, 4, 5, 16, 18, 32, in this order. *)
Theorem load_prepends_primary_header s self file xs file_bytes :
  fields_of s self = Some xs ->
  read_bytes file = Ok file_bytes ->
  exists header,
    (load self file true s).2
    = _decode_fixed_length file_bytes (header ++ xs)
    /\ PacketField._name <$> header
       = VStr <$> ["CCSDS_VERSION_NUMBER"; "CCSDS_PACKET_TYPE";
                   "CCSDS_SECONDARY_FLAG"; "CCSDS_APID";
                   "CCSDS_SEQUENCE_FLAG"; "CCSDS_SEQUENCE_COUNT";
                   "CCSDS_PACKET_LENGTH"]
    /\ PacketField._data_type <$> header = replicate 7 (VStr "uint")
    /\ PacketField._bit_length <$> header
       = VInt <$> [3; 1; 1; 11; 2; 14; 16]
    /\ PacketField._bit_offset <$> header
       = VInt <$> [0; 3; 4; 5; 16; 18; 32]
    /\ PacketField._byte_order <$> header = replicate 7 (VStr "big").
Proof.
  intros Hf Hb. exists header_fields.
  rewrite (load_spec _ _ _ _ _ Hf), Hb. repeat split.
Qed.

(** C7: constructing a FixedLength from the list object [fields] copies
    it.  The caller's list is left as it was; whatever the caller then
    appends to it, deletes from it or replaces in it, the instance keeps
    the fields it was built with and [load] returns what it would have
    returned without the mutations; and [load] leaves the caller's list
    as it finds it. *)
Theorem new_copies_caller_list s fields xs :
  lists s !! fields = Some xs ->
  exists s1 self,
    FixedLength.new fields s = (s1, Ok self)
    /\ lists s1 !! fields = Some xs
    /\ fields_of s1 self = Some xs
    /\ forall ms,
         let s2 := mutate_all fields ms s1 in
         fields_of s2 self = Some xs
         /\ forall file inc,
              (load self file inc s2).2 = (load self file inc s1).2
              /\ lists (load self file inc s2).1 !! fields
                 = lists s2 !! fields.
Proof.
  intros Hl. pose proof (fresh_list_ne _ _ _ Hl) as Hne.
  eexists _, _. split; [by apply new_spec|].
  set (s1 := mk_store _ _).
  assert (lists s1 !! fields = Some xs) as Hl1.
  { subst s1. cbn. by rewrite lookup_insert_ne. }
  assert (objs s1 !! fresh (dom (objs s)) = Some (fresh (dom (lists s))))
    as Ho1 by (subst s1; cbn; by rewrite lookup_insert_eq).
  assert (lists s1 !! fresh (dom (lists s)) = Some xs)
    as Hc1 by (subst s1; cbn; by rewrite lookup_insert_eq).
  assert (fields_of s1 (fresh (dom (objs s))) = Some xs) as Hf1.
  { apply fields_of_Some. eauto. }
  split; [done|]. split; [done|].
  intros ms s2.
  assert (fields_of s2 (fresh (dom (objs s))) = Some xs) as Hf2.
  { by eapply fields_of_mutate_all. }
  split; [done|]. intros file inc. split.
  - rewrite (load_spec _ _ _ _ _ Hf1), (load_spec _ _ _ _ _ Hf2).
    destruct (read_bytes file); [|done]. by destruct inc.
  - apply load_keeps_lists. apply mutate_all_is_Some. eauto.
Qed.

End FixedLengthFacts.

(** C2 fails on the code: [load] with the header rebinds [self._fields].
    On a FixedLength built from the one field [field_A], the first such
    [load] decodes with the header and [field_A] and leaves them as the
    stored field list; a second, identical [load] decodes with the header
    twice. *)
Theorem load_twice_repeats_header
    (np_fromfile : string -> option (list byte)) (Columns : Type)
    (_decode_fixed_length : list byte -> list PacketField.t -> result Columns)
    (file_bytes : list byte) :
  exists s0 self,
    FixedLength.new 0%nat caller_store = (s0, Ok self)
    /\ fields_of s0 self = Some [field_A]
    /\ let load :=
         FixedLength.load np_fromfile Columns _decode_fixed_length
           self (FileObj file_bytes) true in
       (load s0).2
       = _decode_fixed_length file_bytes (header_fields ++ [field_A])
       /\ fields_of (load s0).1 self = Some (header_fields ++ [field_A])
       /\ (load (load s0).1).2
          = _decode_fixed_length file_bytes
              (header_fields ++ header_fields ++ [field_A]).
Proof.
  eexists _, _. split; [by apply (new_spec caller_store 0%nat [field_A])|].
  set (s0 := mk_store _ _).
  assert (fields_of s0 (fresh (dom (objs caller_store))) = Some [field_A])
    as Hf0.
  { apply fields_of_Some. subst s0. cbn. eexists.
    split; by rewrite lookup_insert_eq. }
  split; [done|]. cbn zeta.
  rewrite (load_spec _ _ _ _ _ _ _ _ Hf0). cbn [FixedLength.read_bytes fst snd].
  split; [done|]. split; [apply fields_of_with_header|].
  by rewrite (load_spec _ _ _ _ _ _ _ _ (fields_of_with_header _ _ _)).
Qed.

(** With a decoder that returns the number of fields it is given, the
    two identical calls return 8 and 15. *)
Example load_twice_field_counts :
  let count (_ : list byte) (fields : list PacketField.t) :=
    Ok (length fields) in
  let load :=
    FixedLength.load (fun _ => None) nat count 0%nat (FileObj []) true in
  let s0 := (FixedLength.new 0%nat caller_store).1 in
  (load s0).2 = Ok 8%nat /\ (load (load s0).1).2 = Ok 15%nat.
Proof. vm_compute. split; reflexivity. Qed.

Lemma load_prepends_primary_header_witness :
  exists header,
    (FixedLength.load (fun _ => None) (list PacketField.t)
       (fun _ fields => Ok fields) 0%nat (FileObj []) true
       (FixedLength.new 0%nat caller_store).1).2
    = Ok (header ++ [field_A])
    /\ PacketField._name <$> header
       = VStr <$> ["CCSDS_VERSION_NUMBER"; "CCSDS_PACKET_TYPE";
                   "CCSDS_SECONDARY_FLAG"; "CCSDS_APID";
                   "CCSDS_SEQUENCE_FLAG"; "CCSDS_SEQUENCE_COUNT";
                   "CCSDS_PACKET_LENGTH"]
    /\ PacketField._data_type <$> header = replicate 7 (VStr "uint")
    /\ PacketField._bit_length <$> header = VInt <$> [3; 1; 1; 11; 2; 14; 16]
    /\ PacketField._bit_offset <$> header = VInt <$> [0; 3; 4; 5; 16; 18; 32]
    /\ PacketField._byte_order <$> header = replicate 7 (VStr "big").
Proof.
  apply (load_prepends_primary_header (fun _ => None) (list PacketField.t)
           (fun _ fields => Ok fields)
           (FixedLength.new 0%nat caller_store).1 0%nat (FileObj [])
           [field_A] []).
  - vm_compute. reflexivity.
  - reflexivity.
Defined.

Lemma new_copies_caller_list_witness :
  exists s1 self,
    FixedLength.new 0%nat caller_store = (s1, Ok self)
    /\ lists s1 !! 0%nat = Some [field_A]
    /\ fields_of s1 self = Some [field_A]
    /\ forall ms,
         let s2 := mutate_all 0%nat ms s1 in
         fields_of s2 self = Some [field_A]
         /\ forall file inc,
              (FixedLength.load (fun _ => None) (list PacketField.t)
                 (fun _ fields => Ok fields) self file inc s2).2
              = (FixedLength.load (fun _ => None) (list PacketField.t)
                   (fun _ fields => Ok fields) self file inc s1).2
              /\ lists (FixedLength.load (fun _ => None) (list PacketField.t)
                          (fun _ fields => Ok fields) self file inc s2).1
                 !! 0%nat
                 = lists s2 !! 0%nat.
Proof.
  apply (new_copies_caller_list (fun _ => None) (list PacketField.t)
           (fun _ fields => Ok fields) caller_store 0%nat [field_A]).
  vm_compute. reflexivity.
Defined.

(** ** FixedLength.from_file *)

Section FromFileFacts.

Variable csv_records : string -> option (list (list string)).
Variable int_of_str : string -> option Z.

Abbreviation loader := (_get_fields_csv_file csv_records int_of_str).
Abbreviation from_file := (FixedLength.from_file csv_records int_of_str).

Lemma str_take_drop n p : str_take n p +:+ str_drop n p = p.
Proof.
  revert p. induction n as [|n IH]; intros [|a p]; simpl; try reflexivity.
  change (String a (str_take n p +:+ str_drop n p) = String a p).
  f_equal. apply IH.
Qed.

Lemma str_app_empty p : p +:+ "" = p.
Proof.
  induction p as [|a p IH]; [reflexivity|].
  change (String a (p +:+ "") = String a p). f_equal. apply IH.
Qed.

(** [root + ext == path], as the documentation of [splitext] has it. *)
Lemma splitext_join p : (splitext p).1 +:+ (splitext p).2 = p.
Proof.
  unfold splitext. destruct (_ && _); cbn.
  - apply str_take_drop.
  - apply str_app_empty.
Qed.

(** C9: for a path whose extension, as [os.path.splitext] gives it, is
    not '.csv', [from_file] raises [ValueError] and leaves the store as
    it was, whatever the file system holds.  When the extension is
    '.csv' the path ends in '.csv', and [from_file] raises what the CSV
    loader raises on that path or returns an instance holding the fields
    the loader returns. *)
Theorem from_file_csv_only file s :
  ((splitext file).2 ≠ ".csv" ->
   from_file file s
   = (s, Raise (ValueError
            ("File type " +:+ (splitext file).2 +:+ " not supported."))))
  /\ ((splitext file).2 = ".csv" ->
      (exists root, file = root +:+ ".csv")
      /\ match loader file with
         | Raise e => from_file file s = (s, Raise e)
         | Ok xs =>
             exists s' self,
               from_file file s = (s', Ok self)
               /\ fields_of s' self = Some xs
         end).
Proof.
  split; intros Hext.
  - unfold FixedLength.from_file, mbind, M_bind, lift.
    by rewrite bool_decide_eq_false_2.
  - split.
    { exists (splitext file).1. rewrite <- Hext. symmetry.
      apply splitext_join. }
    unfold FixedLength.from_file, mbind, M_bind, lift.
    rewrite bool_decide_eq_true_2 by done.
    destruct (loader file) as [xs|e]; [|reflexivity].
    unfold new_list at 1.
    set (s1 := mk_store _ _).
    assert (lists s1 !! fresh (dom (lists s)) = Some xs) as Hl
      by (subst s1; cbn; by rewrite lookup_insert_eq).
    rewrite (new_spec _ _ _ Hl). eexists _, _. split; [reflexivity|].
    apply fields_of_Some. cbn. eexists.
    split; by rewrite lookup_insert_eq.
Qed.

End FromFileFacts.

Lemma from_file_csv_only_witness :
  FixedLength.from_file sample_files decimal "layout.txt" caller_store
  = (caller_store, Raise (ValueError "File type .txt not supported."))
  /\ (exists root, "four.csv" = root +:+ ".csv").
Proof.
  split.
  - apply (from_file_csv_only sample_files decimal "layout.txt" caller_store).
    vm_compute. discriminate.
  - apply (from_file_csv_only sample_files decimal "four.csv" caller_store).
    reflexivity.
Defined.

(** * Further properties *)

(** ** PacketField *)

Section PacketFieldMore.
Import PacketField.

Implicit Types name data_type bit_length bit_offset byte_order : value.

Lemma init_types_fail name data_type bit_length bit_offset byte_order :
  types_ok name data_type bit_length bit_offset = false ->
  exists msg,
    __init__ name data_type bit_length bit_offset byte_order
    = Raise (TypeError msg).
Proof.
  unfold types_ok, __init__.
  destruct (isinstance_str name); [|eauto].
  destruct (isinstance_str data_type); [|eauto].
  destruct (isinstance_int bit_length); [|eauto].
  destruct (is_none bit_offset || isinstance_int bit_offset); [|eauto].
  discriminate.
Qed.

Lemma init_types_pass name data_type bit_length bit_offset byte_order :
  types_ok name data_type bit_length bit_offset = true ->
  __init__ name data_type bit_length bit_offset byte_order
  = if negb (in_str_tuple data_type valid_data_types) then
      Raise (ValueError
        "data_type must be one of ('uint', 'int', 'float', 'str', 'fill')")
    else if negb (in_str_tuple byte_order valid_byte_orders) then
      Raise (ValueError "byte_order must be one of ('big', 'little')")
    else Ok (mk name data_type bit_length bit_offset byte_order).
Proof.
  unfold types_ok, __init__. intros H.
  repeat (apply andb_prop in H; destruct H as [H ?]).
  repeat match goal with E : _ = true |- _ => rewrite E; clear E end.
  reflexivity.
Qed.

(** The constructor raises nothing but [TypeError] and [ValueError].  It
    raises [TypeError] exactly when one of the four type checks fails,
    whatever [data_type] and [byte_order] are worth, and [ValueError]
    exactly when the type checks pass and [data_type] or [byte_order] is
    not in its tuple; so a [byte_order] that is not a str is a
    [ValueError], never a [TypeError]. *)
Theorem init_error_classes name data_type bit_length bit_offset byte_order :
  let r := __init__ name data_type bit_length bit_offset byte_order in
  ((exists msg, r = Raise (TypeError msg))
   <-> types_ok name data_type bit_length bit_offset = false)
  /\ ((exists msg, r = Raise (ValueError msg))
      <-> types_ok name data_type bit_length bit_offset = true
          /\ (in_str_tuple data_type valid_data_types = false
              \/ in_str_tuple byte_order valid_byte_orders = false))
  /\ (forall e, r = Raise e ->
      exists msg, e = TypeError msg \/ e = ValueError msg).
Proof.
  cbn zeta.
  destruct (types_ok name data_type bit_length bit_offset) eqn:Ht.
  - rewrite (init_types_pass _ _ _ _ byte_order Ht).
    destruct (in_str_tuple data_type valid_data_types),
      (in_str_tuple byte_order valid_byte_orders); cbn.
    + split; [|split].
      * split; [intros [msg H]|intros H]; discriminate H.
      * split; [intros [msg H]; discriminate H|].
        intros [_ [H|H]]; discriminate H.
      * intros e H; discriminate H.
    + split; [|split].
      * split; [intros [msg H]|intros H]; discriminate H.
      * split; eauto.
      * intros e [= <-]. eauto.
    + split; [|split].
      * split; [intros [msg H]|intros H]; discriminate H.
      * split; eauto.
      * intros e [= <-]. eauto.
    + split; [|split].
      * split; [intros [msg H]|intros H]; discriminate H.
      * split; eauto.
      * intros e [= <-]. eauto.
  - destruct (init_types_fail _ _ _ _ byte_order Ht) as [msg ->].
    split; [|split].
    + split; eauto.
    + split; [intros [msg' H]; discriminate H|intros [H _]; discriminate H].
    + intros e [= <-]. eauto.
Qed.

(** The pairs [__iter__] yields carry, in the order of the constructor's
    parameters, values that construct the same field again. *)
Theorem iter_values_rebuild
    name data_type bit_length bit_offset byte_order self n d l o b :
  __init__ name data_type bit_length bit_offset byte_order = Ok self ->
  (__iter__ self).*2 = [n; d; l; o; b] ->
  __init__ n d l o b = Ok self.
Proof.
  intros [-> Hacc]%init_Ok_inv [= <- <- <- <- <-].
  by apply init_accepted.
Qed.

Lemma iter_values_rebuild_witness :
  __init__ (VStr "A") (VStr "int") (VInt 12) (VInt 48) (VStr "little")
  = Ok (mk (VStr "A") (VStr "int") (VInt 12) (VInt 48) (VStr "little")).
Proof.
  apply (iter_values_rebuild
           (VStr "A") (VStr "int") (VInt 12) (VInt 48) (VStr "little")
           (mk (VStr "A") (VStr "int") (VInt 12) (VInt 48) (VStr "little")));
    reflexivity.
Defined.

End PacketFieldMore.

(** The list literal of [load] lays the header out without gap or
    overlap: every constructor call returns, each field's explicit
    [bit_offset] is the sum of the bit lengths before it, and the seven
    fields declare 48 bits. *)
Theorem primary_header_tiles_48_bits :
  exists header,
    FixedLength.primary_header = Ok header
    /\ total_bits header = 48
    /\ forall i f,
         header !! i = Some f ->
         int_value (PacketField._bit_offset f) = Some (total_bits (take i header)).
Proof.
  exists header_fields. split; [reflexivity|]. split; [reflexivity|].
  intros i f H.
  do 7 (destruct i as [|i]; [injection H as <-; reflexivity|]).
  discriminate.
Qed.

(** ** FixedLength.load and the store *)

Section LoadMore.

Variable np_fromfile : string -> option (list byte).
Variable Columns : Type.
Variable _decode_fixed_length :
  list byte -> list PacketField.t -> result Columns.

Abbreviation load' :=
  (FixedLength.load np_fromfile Columns _decode_fixed_length).
Abbreviation read_bytes' := (FixedLength.read_bytes np_fromfile).

(** The store after [load]: the one before, or, when the file was read
    and the header asked for, the one with the header-prefixed list. *)
Lemma load_store_cases s self file inc :
  (load' self file inc s).1 = s
  \/ exists xs file_bytes,
       inc = true /\ read_bytes' file = Ok file_bytes
       /\ fields_of s self = Some xs
       /\ (load' self file inc s).1 = with_header s self xs.
Proof.
  destruct (fields_of s self) as [xs|] eqn:Hf.
  - rewrite (load_spec _ _ _ _ _ _ _ _ Hf).
    destruct (read_bytes' file) as [file_bytes|e] eqn:Hb; [|by left].
    destruct inc; [|by left]. right. by exists xs, file_bytes.
  - left. unfold FixedLength.load, mbind, M_bind, lift.
    destruct (read_bytes' file) as [file_bytes|e]; [|reflexivity].
    unfold fields_of in Hf.
    destruct inc.
    + rewrite primary_header_value. unfold get_fields at 1.
      destruct (objs s !! self) as [old|]; [|reflexivity].
      unfold read_list at 1. cbn in Hf. by rewrite Hf.
    + cbn. unfold get_fields.
      destruct (objs s !! self) as [old|]; [|reflexivity].
      unfold read_list. cbn in Hf. by rewrite Hf.
Qed.

(** Without the header, [load] changes nothing in the store, and on an
    instance whose field list is [xs] it returns what the decoder makes
    of the file's bytes and [xs], or the error of the read. *)
Theorem load_without_header_keeps_store s self file :
  (load' self file false s).1 = s
  /\ forall xs,
       fields_of s self = Some xs ->
       (load' self file false s).2
       = file_bytes ← read_bytes' file; _decode_fixed_length file_bytes xs.
Proof.
  split.
  - destruct (load_store_cases s self file false)
      as [H|(xs & b & [=] & _)]. exact H.
  - intros xs Hf. rewrite (load_spec _ _ _ _ _ _ _ _ Hf).
    by destruct (read_bytes' file).
Qed.

(** A file that cannot be read makes [load] raise before it touches the
    instance, with or without the header.  An error of the decoder comes
    after: with the header, the instance keeps the header-prefixed field
    list although the call raised. *)
Theorem load_failure_effects s self file xs e :
  fields_of s self = Some xs ->
  (read_bytes' file = Raise e ->
   forall inc, load' self file inc s = (s, Raise e))
  /\ (forall file_bytes,
        read_bytes' file = Ok file_bytes ->
        _decode_fixed_length file_bytes (header_fields ++ xs) = Raise e ->
        (load' self file true s).2 = Raise e
        /\ fields_of (load' self file true s).1 self
           = Some (header_fields ++ xs)).
Proof.
  intros Hf. split.
  - intros Hb inc. by rewrite (load_spec _ _ _ _ _ _ _ _ Hf), Hb.
  - intros file_bytes Hb He.
    rewrite (load_spec _ _ _ _ _ _ _ _ Hf), Hb. cbn [fst snd].
    split; [exact He|apply fields_of_with_header].
Qed.

(** The header piles up: after [k] calls of [load] with the header on a
    readable file, the instance's field list is [k] copies of the header
    ahead of the fields it started with, and this is the list a further
    [load] without the header decodes with. *)
Theorem load_header_accumulates s self file xs file_bytes k :
  fields_of s self = Some xs ->
  read_bytes' file = Ok file_bytes ->
  let s_k := Nat.iter k (fun s => (load' self file true s).1) s in
  fields_of s_k self = Some (concat (replicate k header_fields) ++ xs)
  /\ (load' self file false s_k).2
     = _decode_fixed_length file_bytes
         (concat (replicate k header_fields) ++ xs).
Proof.
  intros Hf Hb. cbn zeta.
  assert (fields_of (Nat.iter k (fun s => (load' self file true s).1) s) self
          = Some (concat (replicate k header_fields) ++ xs)) as Hk.
  { induction k as [|k IH]; [exact Hf|].
    cbn [Nat.iter nat_rect]. rewrite (load_spec _ _ _ _ _ _ _ _ IH), Hb.
    cbn [fst replicate concat]. rewrite <- app_assoc.
    apply fields_of_with_header. }
  split; [exact Hk|].
  by rewrite (load_spec _ _ _ _ _ _ _ _ Hk), Hb.
Qed.

(** [load] on one instance leaves the field list of every other instance
    as it was. *)
Theorem load_leaves_other_instances s self other file inc ys :
  other ≠ self ->
  fields_of s other = Some ys ->
  fields_of (load' self file inc s).1 other = Some ys.
Proof.
  intros Hne Hf.
  destruct (load_store_cases s self file inc)
    as [->|(xs & b & _ & _ & _ & ->)]; [exact Hf|].
  apply fields_of_Some in Hf as (l & Ho & Hl).
  apply fields_of_Some. exists l. unfold with_header. cbn. split.
  - by rewrite lookup_insert_ne.
  - rewrite lookup_insert_ne; [done|]. by eapply fresh_list_ne.
Qed.

End LoadMore.

Lemma load_without_header_keeps_store_witness :
  (FixedLength.load (fun _ => None) (list PacketField.t)
     (fun _ fields => Ok fields) 0%nat (FileObj []) false
     (FixedLength.new 0%nat caller_store).1).2
  = Ok [field_A].
Proof.
  apply (load_without_header_keeps_store (fun _ => None) (list PacketField.t)
           (fun _ fields => Ok fields)
           (FixedLength.new 0%nat caller_store).1 0%nat (FileObj [])).
  vm_compute. reflexivity.
Defined.

Lemma load_failure_effects_witness :
  (forall inc,
     FixedLength.load (fun _ => None) nat
       (fun _ _ => Raise (OSError "missing")) 0%nat (FilePath "missing") inc
       (FixedLength.new 0%nat caller_store).1
     = ((FixedLength.new 0%nat caller_store).1, Raise (OSError "missing")))
  /\ fields_of
       (FixedLength.load (fun _ => None) nat
          (fun _ _ => Raise (OSError "missing")) 0%nat (FileObj []) true
          (FixedLength.new 0%nat caller_store).1).1 0%nat
     = Some (header_fields ++ [field_A]).
Proof.
  pose proof (load_failure_effects (fun _ => None) nat
                (fun _ _ => Raise (OSError "missing"))
                (FixedLength.new 0%nat caller_store).1 0%nat
                (FilePath "missing") [field_A] (OSError "missing")) as H1.
  pose proof (load_failure_effects (fun _ => None) nat
                (fun _ _ => Raise (OSError "missing"))
                (FixedLength.new 0%nat caller_store).1 0%nat
                (FileObj []) [field_A] (OSError "missing")) as H2.
  split.
  - apply H1; [vm_compute|]; reflexivity.
  - apply (H2 ltac:(vm_compute; reflexivity)) with (file_bytes := []);
      reflexivity.
Defined.

Lemma load_header_accumulates_witness :
  (FixedLength.load (fun _ => None) (list PacketField.t)
     (fun _ fields => Ok fields) 0%nat (FileObj []) false
     (Nat.iter 3
        (fun s =>
           (FixedLength.load (fun _ => None) (list PacketField.t)
              (fun _ fields => Ok fields) 0%nat (FileObj []) true s).1)
        (FixedLength.new 0%nat caller_store).1)).2
  = Ok (concat (replicate 3 header_fields) ++ [field_A]).
Proof.
  apply (load_header_accumulates (fun _ => None) (list PacketField.t)
           (fun _ fields => Ok fields)
           (FixedLength.new 0%nat caller_store).1 0%nat (FileObj [])
           [field_A] [] 3).
  - vm_compute. reflexivity.
  - reflexivity.
Defined.

Lemma load_leaves_other_instances_witness :
  fields_of
    (FixedLength.load (fun _ => None) nat (fun _ fields => Ok (length fields))
       0%nat (FileObj []) true
       (FixedLength.new 0%nat (FixedLength.new 0%nat caller_store).1).1).1
    1%nat
  = Some [field_A].
Proof.
  apply (load_leaves_other_instances (fun _ => None) nat
           (fun _ fields => Ok (length fields))
           (FixedLength.new 0%nat (FixedLength.new 0%nat caller_store).1).1
           0%nat 1%nat (FileObj []) true [field_A]).
  - discriminate.
  - vm_compute. reflexivity.
Defined.

(** ** The CSV layout loader: edge cases *)

Section CsvMore.
Import PacketField.

Variable csv_records : string -> option (list (list string)).
Variable int_of_str : string -> option Z.

Abbreviation loader' := (_get_fields_csv_file csv_records int_of_str).

Lemma filter_blank (rest : list (list string)) :
  Forall (fun row => row = []) rest ->
  filter (fun row => row ≠ []) rest = [].
Proof.
  induction 1 as [|row rest -> _ IH]; [reflexivity|].
  rewrite filter_cons_False; [exact IH|]. by intros H.
Qed.

(** A file with the header row and nothing but blank lines below it
    loads as the empty field list. *)
Theorem loader_header_only (headers : list string) rest csv_file :
  csv_records csv_file = Some (headers :: rest) ->
  "name" ∈ headers /\ "data_type" ∈ headers /\ "bit_length" ∈ headers ->
  Forall (fun row => row = []) rest ->
  _get_fields_csv_file csv_records int_of_str csv_file = Ok [].
Proof.
  intros Hfile Hreq Hblank. apply (loader_Ok _ _ _ _ _ _ Hfile Hreq).
  unfold reader_rows. rewrite (filter_blank _ Hblank). constructor.
Qed.

(** A loaded layout has one field for each record below the header that
    is not a blank line. *)
Theorem loader_length (headers : list string) rest csv_file fields :
  csv_records csv_file = Some (headers :: rest) ->
  _get_fields_csv_file csv_records int_of_str csv_file = Ok fields ->
  length fields = length (filter (fun row => row ≠ []) rest).
Proof.
  intros Hfile Hload.
  pose proof (loader_Ok_req _ _ _ _ _ _ Hfile Hload) as Hreq.
  apply (loader_Ok _ _ _ _ _ _ Hfile Hreq) in Hload.
  apply Forall2_length in Hload. rewrite <- Hload.
  unfold reader_rows. by rewrite length_fmap.
Qed.

Lemma getitem_str row key s :
  getitem row key = Ok (VStr s) -> row !! key = Some (Some s).
Proof.
  unfold getitem. destruct (row !! key) as [[c|]|]; cbn; congruence.
Qed.

(** What a row must hold to build a field, and what the field holds. *)
Lemma built_from_cells (headers : list string) row f :
  built_from int_of_str headers row f ->
  exists n d l z,
    row !! "name" = Some (Some n)
    /\ row !! "data_type" = Some (Some d)
    /\ d ∈ valid_data_types
    /\ row !! "bit_length" = Some (Some l)
    /\ int_of_str l = Some z
    /\ _name f = VStr n /\ _data_type f = VStr d
    /\ _bit_length f = VInt z /\ _byte_order f = VStr "big".
Proof.
  intros (name & data_type & bit_length & bit_offset
          & Hn & Hd & Hl & _ & [-> Hacc]%init_Ok_inv).
  unfold accepted in Hacc.
  repeat (apply andb_prop in Hacc; destruct Hacc as [Hacc ?]).
  destruct name as [| | | |n|]; try discriminate.
  match goal with
  | H : in_str_tuple data_type _ = true |- _ =>
      apply in_str_tuple_true in H as (d & -> & Hin)
  end.
  apply getitem_str in Hn, Hd.
  unfold getitem, mbind, result_bind in Hl.
  destruct (row !! "bit_length") as [[l|]|]; try discriminate.
  cbn in Hl. destruct (int_of_str l) as [z|] eqn:Ez; [|discriminate].
  injection Hl as <-.
  exists n, d, l, z. cbn. repeat split; done.
Qed.

(** Every field of a loaded layout mirrors its row: [name] and
    [data_type] are the strs of the row's cells, the [data_type] one of
    the five valid ones; [bit_length] is [int] of the row's cell; and
    [byte_order] is 'big', whatever other columns the file has. *)
Theorem loader_fields_mirror_rows
    (headers : list string) rest csv_file fields :
  csv_records csv_file = Some (headers :: rest) ->
  loader' csv_file = Ok fields ->
  Forall2
    (fun (row : gmap string (option string)) f =>
       exists n d l z,
         row !! "name" = Some (Some n)
         /\ row !! "data_type" = Some (Some d)
         /\ d ∈ valid_data_types
         /\ row !! "bit_length" = Some (Some l)
         /\ int_of_str l = Some z
         /\ _name f = VStr n /\ _data_type f = VStr d
         /\ _bit_length f = VInt z /\ _byte_order f = VStr "big")
    (reader_rows (headers :: rest)) fields.
Proof.
  intros Hfile Hload.
  pose proof (loader_Ok_req _ _ _ _ _ _ Hfile Hload) as Hreq.
  apply (loader_Ok _ _ _ _ _ _ Hfile Hreq) in Hload.
  induction Hload as [|row f rows fs Hf _ IH]; constructor; [|exact IH].
  by eapply built_from_cells.
Qed.

(** The error of the loop body does not depend on the fields read so
    far. *)
Lemma row_step_Raise headers row fields fields' e :
  row_step int_of_str headers row fields = Raise e ->
  row_step int_of_str headers row fields' = Raise e.
Proof.
  unfold row_step, mbind, result_bind, mret, result_ret.
  destruct (bool_decide ("bit_offset" ∈ headers)); cbn [negb].
  - destruct (getitem row "name") as [n|]; [|done].
    destruct (getitem row "data_type") as [d|]; [|done].
    destruct (getitem row "bit_length") as [cl|]; [|done].
    destruct (py_int int_of_str cl) as [l|]; [|done].
    destruct (getitem row "bit_offset") as [co|]; [|done].
    destruct (py_int int_of_str co) as [o|]; [|done].
    destruct (__init__ n d l o (VStr "big")) as [f|]; [discriminate|done].
  - destruct (getitem row "name") as [n|]; [|done].
    destruct (getitem row "data_type") as [d|]; [|done].
    destruct (getitem row "bit_length") as [cl|]; [|done].
    destruct (py_int int_of_str cl) as [l|]; [|done].
    destruct (__init__ n d l VNone (VStr "big")) as [f|];
      [discriminate|done].
Qed.

Lemma for_rows_app headers pre post fields :
  for_rows int_of_str headers (pre ++ post) fields
  = fields' ← for_rows int_of_str headers pre fields;
    for_rows int_of_str headers post fields'.
Proof.
  revert fields. induction pre as [|row pre IH]; intros fields; cbn;
    [reflexivity|].
  destruct (row_step int_of_str headers row fields) as [fields'|e]; cbn;
    [apply IH|reflexivity].
Qed.

(** The loader stops at the first row that does not build a field and
    raises that row's error; the fields of the rows before it are not
    returned. *)
Theorem loader_fails_at_first_bad_row
    (headers : list string) rest csv_file pre row post fs e :
  csv_records csv_file = Some (headers :: rest) ->
  "name" ∈ headers /\ "data_type" ∈ headers /\ "bit_length" ∈ headers ->
  reader_rows (headers :: rest) = pre ++ row :: post ->
  Forall2 (built_from int_of_str headers) pre fs ->
  row_step int_of_str headers row [] = Raise e ->
  loader' csv_file = Raise e.
Proof.
  intros Hfile Hreq%has_req_columns Hrows Hpre Hrow.
  unfold _get_fields_csv_file.
  rewrite Hfile. cbn [fieldnames head]. rewrite Hreq. cbn [negb].
  rewrite Hrows, for_rows_app.
  assert (for_rows int_of_str headers pre [] = Ok fs) as ->.
  { apply for_rows_spec. exists fs. split; done. }
  cbn. by rewrite (row_step_Raise _ _ _ fs _ Hrow).
Qed.

End CsvMore.

Lemma loader_header_only_witness :
  _get_fields_csv_file
    (fun _ => Some [["name"; "data_type"; "bit_length"]; []; []]) decimal
    "empty.csv"
  = Ok [].
Proof.
  apply (loader_header_only
           (fun _ => Some [["name"; "data_type"; "bit_length"]; []; []])
           decimal ["name"; "data_type"; "bit_length"] [[]; []] "empty.csv").
  - reflexivity.
  - repeat split; apply (bool_decide_unpack _); vm_compute; exact I.
  - repeat constructor.
Defined.

Lemma loader_length_witness :
  length [PacketField.mk (VStr "A") (VStr "uint") (VInt 8) VNone (VStr "big");
          PacketField.mk (VStr "B") (VStr "int") (VInt 16) VNone (VStr "big")]
  = length (filter (fun row : list string => row ≠ [])
              [["A"; "uint"; "8"]; []; ["B"; "int"; "16"]]).
Proof.
  apply (loader_length sample_files decimal
           ["name"; "data_type"; "bit_length"]
           [["A"; "uint"; "8"]; []; ["B"; "int"; "16"]] "three.csv").
  - reflexivity.
  - vm_compute. reflexivity.
Defined.

Lemma loader_fields_mirror_rows_witness :
  Forall2
    (fun (row : gmap string (option string)) f =>
       exists n d l z,
         row !! "name" = Some (Some n)
         /\ row !! "data_type" = Some (Some d)
         /\ d ∈ PacketField.valid_data_types
         /\ row !! "bit_length" = Some (Some l)
         /\ decimal l = Some z
         /\ PacketField._name f = VStr n /\ PacketField._data_type f = VStr d
         /\ PacketField._bit_length f = VInt z
         /\ PacketField._byte_order f = VStr "big")
    (reader_rows [["name"; "data_type"; "bit_length"];
                  ["A"; "uint"; "8"]; []; ["B"; "int"; "16"]])
    [PacketField.mk (VStr "A") (VStr "uint") (VInt 8) VNone (VStr "big");
     PacketField.mk (VStr "B") (VStr "int") (VInt 16) VNone (VStr "big")].
Proof.
  apply (loader_fields_mirror_rows sample_files decimal
           ["name"; "data_type"; "bit_length"]
           [["A"; "uint"; "8"]; []; ["B"; "int"; "16"]] "three.csv").
  - reflexivity.
  - vm_compute. reflexivity.
Defined.

Lemma loader_fails_at_first_bad_row_witness :
  exists msg,
    _get_fields_csv_file
      (fun _ => Some [["name"; "data_type"; "bit_length"];
                      ["A"; "uint"; "8"]; ["B"; "uint"; "x"];
                      ["C"; "uint"; "8"]])
      decimal "bad.csv"
    = Raise (ValueError msg).
Proof.
  eexists.
  apply (loader_fails_at_first_bad_row
           (fun _ => Some [["name"; "data_type"; "bit_length"];
                           ["A"; "uint"; "8"]; ["B"; "uint"; "x"];
                           ["C"; "uint"; "8"]])
           decimal ["name"; "data_type"; "bit_length"]
           [["A"; "uint"; "8"]; ["B"; "uint"; "x"]; ["C"; "uint"; "8"]]
           "bad.csv"
           [dict_of_record ["name"; "data_type"; "bit_length"]
              ["A"; "uint"; "8"]]
           (dict_of_record ["name"; "data_type"; "bit_length"]
              ["B"; "uint"; "x"])
           [dict_of_record ["name"; "data_type"; "bit_length"]
              ["C"; "uint"; "8"]]
           [PacketField.mk (VStr "A") (VStr "uint") (VInt 8) VNone
              (VStr "big")]).
  - reflexivity.
  - repeat split; apply (bool_decide_unpack _); vm_compute; exact I.
  - reflexivity.
  - constructor; [|constructor].
    exists (VStr "A"), (VStr "uint"), (VInt 8), VNone.
    repeat split; vm_compute; reflexivity.
  - vm_compute. reflexivity.
Defined.

(** ** os.path.splitext on names ending in '.csv' *)

Section SplitextFacts.

Lemma str_app_assoc p q r : (p +:+ q) +:+ r = p +:+ q +:+ r.
Proof.
  induction p as [|a p IH]; [reflexivity|].
  change (String a ((p +:+ q) +:+ r) = String a (p +:+ q +:+ r)).
  f_equal. apply IH.
Qed.

Lemma str_length_app p q :
  String.length (p +:+ q) = (String.length p + String.length q)%nat.
Proof.
  induction p as [|a p IH]; [reflexivity|].
  change (S (String.length (p +:+ q))
          = S (String.length p + String.length q)).
  f_equal. apply IH.
Qed.

Lemma str_get_app p q :
  String.get (String.length p) (p +:+ q) = String.get 0 q.
Proof. induction p as [|a p IH]; [reflexivity|]. exact IH. Qed.

Lemma str_take_app p q : str_take (String.length p) (p +:+ q) = p.
Proof.
  induction p as [|a p IH]; [by destruct q|].
  change (String a (str_take (String.length p) (p +:+ q)) = String a p).
  f_equal. apply IH.
Qed.

Lemma str_drop_app p q : str_drop (String.length p) (p +:+ q) = q.
Proof. induction p as [|a p IH]; [reflexivity|]. exact IH. Qed.

(** [rfind] scans a concatenation part by part. *)
Lemma rfind_from_app c p q i last :
  rfind_from c (p +:+ q) i last
  = rfind_from c q (i + Z.of_nat (String.length p)) (rfind_from c p i last).
Proof.
  revert i last. induction p as [|a p IH]; intros i last.
  - cbn. f_equal. lia.
  - change (rfind_from c (p +:+ q) (i + 1) (if Ascii.eqb a c then i else last)
            = rfind_from c q (i + Z.of_nat (S (String.length p)))
                (rfind_from c p (i + 1) (if Ascii.eqb a c then i else last))).
    rewrite IH. f_equal. lia.
Qed.

(** The index [rfind] returns is the initial one or lies in the part
    scanned. *)
Lemma rfind_from_bounds c p i last :
  rfind_from c p i last = last
  \/ i <= rfind_from c p i last < i + Z.of_nat (String.length p).
Proof.
  revert i last. induction p as [|a p IH]; intros i last; [by left|].
  cbn [rfind_from String.length].
  destruct (IH (i + 1) (if Ascii.eqb a c then i else last)) as [->|H].
  - destruct (Ascii.eqb a c); [right; lia|by left].
  - right. lia.
Qed.

(** When [c] does not occur in [p], the scan returns what it started
    with. *)
Lemma rfind_from_absent_at c p j l :
  l < j -> rfind_from c p j l = l ->
  forall i last, rfind_from c p i last = last.
Proof.
  revert j l. induction p as [|a p IH]; intros j l Hl H i last;
    [reflexivity|].
  cbn [rfind_from] in *.
  destruct (Ascii.eqb a c).
  - destruct (rfind_from_bounds c p (j + 1) j) as [E|E]; lia.
  - apply (IH (j + 1) l); [lia|exact H].
Qed.

Lemma rfind_from_absent c p :
  rfind p c = -1 -> forall i last, rfind_from c p i last = last.
Proof. apply rfind_from_absent_at. lia. Qed.

Lemma rfind_absent_head a p c : rfind (String a p) c = -1 -> a ≠ c.
Proof.
  unfold rfind. cbn [rfind_from]. intros H Heq.
  apply Ascii.eqb_eq in Heq. rewrite Heq in H.
  destruct (rfind_from_bounds c p (0 + 1) 0) as [E|E]; lia.
Qed.

(** The loop over the leading dots finds a character that is not a dot
    when there is one in the range it runs over. *)
Lemma non_dot_before_true p i fuel j a :
  (i <= j < i + fuel)%nat ->
  String.get j p = Some a -> a ≠ "."%char ->
  non_dot_before p i fuel = true.
Proof.
  intros Hj Hget Ha. revert i Hj.
  induction fuel as [|fuel IH]; intros i Hj; [lia|].
  cbn [non_dot_before].
  destruct (String.get i p) as [b|] eqn:E; [|reflexivity].
  destruct (ascii_dec b "."%char) as [->|Hb].
  - apply IH. destruct (decide (j = i)) as [->|]; [congruence|lia].
  - destruct b as [[] [] [] [] [] [] [] []]; try reflexivity.
    by destruct Hb.
Qed.

(** On a path that ends in a name without dot or slash followed by
    '.csv', [splitext] splits off '.csv', whatever comes before the
    name. *)
Lemma splitext_csv_name d base :
  base ≠ "" -> rfind base "/" = -1 -> rfind base "." = -1 ->
  splitext (d +:+ base +:+ ".csv") = (d +:+ base, ".csv").
Proof.
  intros Hbase Hsep Hdot. unfold splitext, rfind.
  rewrite !rfind_from_app.
  rewrite (rfind_from_absent "/" ".csv" eq_refl).
  rewrite (rfind_from_absent "/" base Hsep).
  change (rfind_from "." ".csv" ?i ?l) with i.
  pose proof (rfind_from_bounds "/" d 0 (-1)) as Hd.
  set (sep := rfind_from "/" d 0 (-1)) in *.
  set (dot := 0 + Z.of_nat (String.length d) + Z.of_nat (String.length base)).
  destruct base as [|a base]; [done|].
  apply rfind_absent_head in Hdot.
  assert (0 < Z.of_nat (String.length (String a base))) by (cbn; lia).
  assert ((sep <? dot) = true) as -> by (apply Z.ltb_lt; lia).
  rewrite (non_dot_before_true _ _ _ (String.length d) a).
  - cbn [andb].
    replace (Z.to_nat dot) with (String.length (d +:+ String a base))
      by (rewrite str_length_app; lia).
    rewrite <- str_app_assoc.
    by rewrite str_take_app, str_drop_app.
  - lia.
  - by rewrite str_get_app.
  - exact Hdot.
Qed.

End SplitextFacts.

(** ** FixedLength.from_file, and the store invariant *)

Section FromFileMore.

Variable csv_records : string -> option (list (list string)).
Variable int_of_str : string -> option Z.
Variable np_fromfile : string -> option (list byte).
Variable Columns : Type.
Variable _decode_fixed_length :
  list byte -> list PacketField.t -> result Columns.

Abbreviation csv_loader := (_get_fields_csv_file csv_records int_of_str).
Abbreviation from_file' := (FixedLength.from_file csv_records int_of_str).
Abbreviation load_ :=
  (FixedLength.load np_fromfile Columns _decode_fixed_length).

Lemma fresh_dom_ne {A} (m : gmap nat A) l :
  is_Some (m !! l) -> fresh (dom m) ≠ l.
Proof. intros H <-. apply (is_fresh (dom m)). by apply elem_of_dom. Qed.

Lemma from_file_spec file s :
  (splitext file).2 = ".csv" ->
  from_file' file s
  = match csv_loader file with
    | Raise e => (s, Raise e)
    | Ok xs => (loaded_store s xs, Ok (fresh (dom (objs s))))
    end.
Proof.
  intros Hext. unfold FixedLength.from_file, mbind, M_bind, lift.
  rewrite bool_decide_eq_true_2 by done.
  destruct (csv_loader file) as [xs|e]; [|reflexivity].
  unfold new_list at 1.
  set (s1 := mk_store _ _).
  assert (lists s1 !! fresh (dom (lists s)) = Some xs) as Hl
    by (subst s1; cbn; by rewrite lookup_insert_eq).
  by rewrite (new_spec _ _ _ Hl).
Qed.

Lemma from_file_unsupported file s :
  (splitext file).2 ≠ ".csv" -> (from_file' file s).1 = s.
Proof.
  intros Hext. unfold FixedLength.from_file, mbind, M_bind, lift.
  by rewrite bool_decide_eq_false_2.
Qed.

Lemma fields_of_loaded_store s xs :
  fields_of (loaded_store s xs) (fresh (dom (objs s))) = Some xs.
Proof.
  apply fields_of_Some. unfold loaded_store. cbn. eexists.
  split; by rewrite lookup_insert_eq.
Qed.

Lemma fields_of_loaded_store_other s xs other ys :
  fields_of s other = Some ys ->
  fields_of (loaded_store s xs) other = Some ys.
Proof.
  intros (l & Ho & Hl)%fields_of_Some. apply fields_of_Some. exists l.
  unfold loaded_store. cbn. split.
  - rewrite lookup_insert_ne; [done|]. apply fresh_dom_ne. eauto.
  - assert (fresh (dom (lists s)) ≠ l) as Hne by (apply fresh_dom_ne; eauto).
    rewrite lookup_insert_ne.
    + by rewrite lookup_insert_ne.
    + apply fresh_dom_ne. rewrite lookup_insert_ne; eauto.
Qed.

(** [from_file] takes every path that ends in a name without dot or
    slash followed by '.csv', in any directory: it raises what the CSV
    loader raises on the path, with the store as it was, or returns an
    instance that holds the fields the loader returns. *)
Theorem from_file_accepts_csv_names d base s :
  base ≠ "" -> rfind base "/" = -1 -> rfind base "." = -1 ->
  match csv_loader (d +:+ base +:+ ".csv") with
  | Raise e => from_file' (d +:+ base +:+ ".csv") s = (s, Raise e)
  | Ok xs =>
      exists s' self,
        from_file' (d +:+ base +:+ ".csv") s = (s', Ok self)
        /\ fields_of s' self = Some xs
  end.
Proof.
  intros Hbase Hsep Hdot.
  rewrite from_file_spec
    by (by rewrite (splitext_csv_name _ _ Hbase Hsep Hdot)).
  destruct (csv_loader _) as [xs|e]; [|reflexivity].
  eexists _, _. split; [reflexivity|]. apply fields_of_loaded_store.
Qed.

(** [from_file] and then [load] decode with the fields of the CSV file,
    in row order, behind the header when it is asked for. *)
Theorem from_file_then_load file s s' self xs f inc :
  csv_loader file = Ok xs ->
  from_file' file s = (s', Ok self) ->
  (load_ self f inc s').2
  = file_bytes ← FixedLength.read_bytes np_fromfile f;
    _decode_fixed_length file_bytes
      (if inc then header_fields ++ xs else xs).
Proof.
  intros Hload Hfrom.
  destruct (decide ((splitext file).2 = ".csv")) as [Hext|Hext].
  - rewrite (from_file_spec _ _ Hext), Hload in Hfrom.
    injection Hfrom as <- <-.
    rewrite (load_spec _ _ _ _ _ _ _ _ (fields_of_loaded_store s xs)).
    destruct (FixedLength.read_bytes np_fromfile f); [|reflexivity].
    by destruct inc.
  - exfalso. revert Hfrom.
    unfold FixedLength.from_file, mbind, M_bind, lift.
    by rewrite bool_decide_eq_false_2.
Qed.

(** [from_file] leaves the field list of every instance there is as it
    was, and the instance it returns is a new one. *)
Theorem from_file_leaves_instances file s :
  (forall other ys,
     fields_of s other = Some ys ->
     fields_of (from_file' file s).1 other = Some ys)
  /\ (forall s' self,
        from_file' file s = (s', Ok self) -> objs s !! self = None).
Proof.
  destruct (decide ((splitext file).2 = ".csv")) as [Hext|Hext].
  - rewrite (from_file_spec _ _ Hext).
    destruct (csv_loader file) as [xs|e]; cbn [fst].
    + split.
      * intros other ys. apply fields_of_loaded_store_other.
      * intros s' self [= _ <-]. apply not_elem_of_dom, is_fresh.
    + split; [done|]. intros s' self [=].
  - split.
    + intros other ys. by rewrite (from_file_unsupported _ _ Hext).
    + intros s' self. unfold FixedLength.from_file, mbind, M_bind, lift.
      by rewrite bool_decide_eq_false_2.
Qed.

End FromFileMore.

Lemma from_file_accepts_csv_names_witness :
  exists s' self,
    FixedLength.from_file sample_files decimal ("" +:+ "four" +:+ ".csv")
      caller_store
    = (s', Ok self)
    /\ fields_of s' self
       = Some [PacketField.mk (VStr "A") (VStr "uint") (VInt 8) (VInt 48)
                 (VStr "big");
               PacketField.mk (VStr "B") (VStr "int") (VInt 16) (VInt 56)
                 (VStr "big")].
Proof.
  apply (from_file_accepts_csv_names sample_files decimal "" "four"
           caller_store).
  - discriminate.
  - reflexivity.
  - reflexivity.
Defined.

Lemma from_file_then_load_witness :
  (FixedLength.load (fun _ => None) (list PacketField.t)
     (fun _ fields => Ok fields) 0%nat (FileObj []) true
     (FixedLength.from_file sample_files decimal "three.csv" caller_store).1).2
  = Ok (header_fields
        ++ [PacketField.mk (VStr "A") (VStr "uint") (VInt 8) VNone
              (VStr "big");
            PacketField.mk (VStr "B") (VStr "int") (VInt 16) VNone
              (VStr "big")]).
Proof.
  apply (from_file_then_load sample_files decimal (fun _ => None)
           (list PacketField.t) (fun _ fields => Ok fields)
           "three.csv" caller_store
           (FixedLength.from_file sample_files decimal "three.csv"
              caller_store).1
           0%nat
           [PacketField.mk (VStr "A") (VStr "uint") (VInt 8) VNone
              (VStr "big");
            PacketField.mk (VStr "B") (VStr "int") (VInt 16) VNone
              (VStr "big")]
           (FileObj []) true).
  - vm_compute. reflexivity.
  - vm_compute. reflexivity.
Defined.

Lemma from_file_leaves_instances_witness :
  fields_of
    (FixedLength.from_file sample_files decimal "four.csv"
       (FixedLength.new 0%nat caller_store).1).1 0%nat
  = Some [field_A].
Proof.
  apply (from_file_leaves_instances sample_files decimal "four.csv"
           (FixedLength.new 0%nat caller_store).1).
  vm_compute. reflexivity.
Defined.

(** ** The store invariant *)

Section StoreInvariant.

Variable csv_records : string -> option (list (list string)).
Variable int_of_str : string -> option Z.
Variable np_fromfile : string -> option (list byte).
Variable Columns : Type.
Variable _decode_fixed_length :
  list byte -> list PacketField.t -> result Columns.

(** Writing a list object, new or not, keeps the invariant. *)
Lemma store_inv_insert_list s l xs :
  store_inv s -> store_inv (mk_store (<[l := xs]> (lists s)) (objs s)).
Proof.
  intros [Hdang Hinj]. split; cbn.
  - intros self l' Ho. destruct (decide (l = l')) as [->|Hne].
    + rewrite lookup_insert_eq. eauto.
    + rewrite lookup_insert_ne by done. eauto.
  - exact Hinj.
Qed.

(** Binding an instance to a list object allocated for it keeps the
    invariant. *)
Lemma store_inv_alloc s self xs :
  store_inv s ->
  store_inv (mk_store (<[fresh (dom (lists s)) := xs]> (lists s))
               (<[self := fresh (dom (lists s))]> (objs s))).
Proof.
  intros [Hdang Hinj].
  assert (forall o, objs s !! o ≠ Some (fresh (dom (lists s)))) as Hfresh.
  { intros o Ho. apply Hdang in Ho. by apply fresh_dom_ne in Ho. }
  split; cbn.
  - intros o l Ho. destruct (decide (o = self)) as [->|Hne].
    + rewrite lookup_insert_eq in Ho. injection Ho as <-.
      rewrite lookup_insert_eq. eauto.
    + rewrite lookup_insert_ne in Ho by done.
      rewrite lookup_insert_ne; [eauto|]. intros <-. by eapply Hfresh.
  - intros o1 o2 l H1 H2.
    destruct (decide (o1 = self)) as [->|Hne1],
      (decide (o2 = self)) as [->|Hne2]; [done| | |].
    + rewrite lookup_insert_eq in H1. injection H1 as <-.
      rewrite lookup_insert_ne in H2 by done. by apply Hfresh in H2.
    + rewrite lookup_insert_eq in H2. injection H2 as <-.
      rewrite lookup_insert_ne in H1 by done. by apply Hfresh in H1.
    + rewrite lookup_insert_ne in H1, H2 by done. eauto.
Qed.

(** Construction, [load], [from_file] and a caller's mutation of a list
    object all keep the store well formed: every instance still refers
    to a list object, and no two instances to the same one. *)
Theorem store_inv_preserved s :
  store_inv s ->
  (forall fields, store_inv (FixedLength.new fields s).1)
  /\ (forall self file inc,
        store_inv
          (FixedLength.load np_fromfile Columns _decode_fixed_length
             self file inc s).1)
  /\ (forall file,
        store_inv (FixedLength.from_file csv_records int_of_str file s).1)
  /\ (forall l m, store_inv (mutate l m s).1).
Proof.
  intros Hinv. split; [|split; [|split]].
  - intros fields. destruct (lists s !! fields) as [xs|] eqn:Hl.
    + rewrite (new_spec _ _ _ Hl). by apply store_inv_alloc.
    + unfold FixedLength.new, FixedLength.__init__, mbind, M_bind, read_list.
      by rewrite Hl.
  - intros self file inc.
    destruct (load_store_cases np_fromfile Columns _decode_fixed_length
                s self file inc) as [->|(xs & b & _ & _ & _ & ->)];
      [done|].
    by apply store_inv_alloc.
  - intros file.
    destruct (decide ((splitext file).2 = ".csv")) as [Hext|Hext].
    + rewrite (from_file_spec _ _ _ _ Hext).
      destruct (_get_fields_csv_file csv_records int_of_str file) as [xs|e];
        [|done].
      exact (store_inv_alloc
               (mk_store (<[fresh (dom (lists s)) := xs]> (lists s)) (objs s))
               (fresh (dom (objs s))) xs
               (store_inv_insert_list s _ xs Hinv)).
    + by rewrite (from_file_unsupported _ _ _ _ Hext).
  - intros l m. unfold mutate.
    destruct (lists s !! l) as [xs|]; [|done].
    destruct (mutate_list m xs); [|done].
    by apply store_inv_insert_list.
Qed.

End StoreInvariant.

Lemma store_inv_preserved_witness :
  store_inv
    (FixedLength.load (fun _ => None) nat (fun _ fields => Ok (length fields))
       0%nat (FileObj []) true (mk_store ∅ ∅)).1
  /\ store_inv (FixedLength.new 0%nat caller_store).1.
Proof.
  assert (forall lists0, store_inv (mk_store lists0 ∅)) as Hempty.
  { intros lists0. split; cbn; intros *; by rewrite lookup_empty. }
  split.
  - apply (store_inv_preserved sample_files decimal (fun _ => None) nat
             (fun _ fields => Ok (length fields)) (mk_store ∅ ∅)).
    apply Hempty.
  - apply (store_inv_preserved sample_files decimal (fun _ => None) nat
             (fun _ fields => Ok (length fields)) caller_store).
    apply Hempty.
Defined.
